(** * BCI-tests: the image catalog of [bci_tester/data.py] and the
      verification rules of [tests/test_base.py]

    The Python module [bci_tester.data] is executed once, at import time: it
    reads the process environment, parses [OS_VERSION], builds one
    [Container] object per image and, when [BCI_DEVEL_REPO] is set, rebinds
    the repository-bearing names to [DerivedContainer] objects.  Here the
    module body is a function [data_module] from the environment to either
    the raised exception or the module's final name space.

    Strings are [string] (code points below 256), Python [int] is [Z], an
    object is its class together with its [__dict__] (a [gmap] from attribute
    names to values), [os.environ] is a [gmap string string], and an
    exception raised by the module is the left summand of [exn + _]. *)

From Stdlib Require Import Ascii String ZArith.
From stdpp Require Import base tactics option list strings gmap fin_maps
  functions pretty.

Local Open Scope Z_scope.
Local Open Scope string_scope.
Local Open Scope list_scope.

(** ** Python values, exceptions and the builtins the sources use *)

Module Py.

(** The exceptions the two sources can raise on their own. *)
Inductive exn :=
  | ValueError_invalid_literal (s : string)   (* int(s): no literal, or too long *)
  | ValueError_not_enough_values (got : nat)   (* a, b = <fewer than two> *)
  | ValueError_too_many_values                 (* a, b = <more than two> *)
  | AssertionError (msg : string)
  | AttributeError (attr : string)
  | KeyError (key : string).

Definition is_ValueError (e : exn) : bool :=
  match e with
  | ValueError_invalid_literal _
  | ValueError_not_enough_values _
  | ValueError_too_many_values => true
  | _ => false
  end.

(** Code that may raise: [inl e] is "raised e", [inr v] is "returned v". *)
Definition raise {A} (e : exn) : exn + A := inl e.

#[global] Instance exn_ret : MRet (sum exn) := λ A x, inr x.
#[global] Instance exn_bind : MBind (sum exn) := λ A B f m,
  match m with
  | inl e => inl e
  | inr x => f x
  end.
#[global] Arguments raise {_} _ /.
#[global] Arguments exn_ret _ _ /.
#[global] Arguments exn_bind _ _ _ !_ /.

(** The white space that [int] skips around a literal: tab to carriage
    return and the blank, and NEL and NBSP of Latin-1, which [int] turns
    into blanks first.  The separators FS..US are white space for
    [str.isspace] but not for [int]. *)
Definition isspace (c : ascii) : bool :=
  let n := nat_of_ascii c in
  ((9 <=? n) && (n <=? 13) || (n =? 32) || (n =? 133) || (n =? 160))%nat.

Fixpoint lstrip (s : string) : string :=
  match s with
  | String c s' => if isspace c then lstrip s' else s
  | EmptyString => EmptyString
  end.

Fixpoint rstrip (s : string) : string :=
  match s with
  | String c s' =>
      match rstrip s' with
      | EmptyString => if isspace c then EmptyString else String c EmptyString
      | r => String c r
      end
  | EmptyString => EmptyString
  end.

Definition strip (s : string) : string := rstrip (lstrip s).

Definition isdigit (c : ascii) : bool :=
  let n := nat_of_ascii c in ((48 <=? n) && (n <=? 57))%nat.

Definition digit_value (c : ascii) : Z := Z.of_nat (nat_of_ascii c) - 48.

(** The digits of a base-10 literal: decimal digits, with single underscores
    allowed between two digits.  [prev] tells whether the previous character
    was a digit. *)
Fixpoint int_digits (acc : Z) (prev : bool) (s : string) : option Z :=
  match s with
  | EmptyString => if prev then Some acc else None
  | String c s' =>
      if isdigit c then int_digits (10 * acc + digit_value c) true s'
      else if (Ascii.eqb c "_" && prev)%bool then int_digits acc false s'
      else None
  end.

(** [sys.int_info.default_max_str_digits]: since CPython 3.11 [int] refuses
    a decimal literal with more digits than this. *)
Definition max_str_digits : N := 4300.

Fixpoint count_digits (s : string) : N :=
  match s with
  | EmptyString => 0
  | String c s' => if isdigit c then N.succ (count_digits s') else count_digits s'
  end.

(** The digits of a literal, sign and white space taken off. *)
Definition int_limited (r : string) : option Z :=
  if (count_digits r <=? max_str_digits)%N then int_digits 0 false r else None.

(** [int(s)] in base 10: surrounding white space is dropped, one sign is
    allowed, at most [max_str_digits] digits, and anything else raises
    [ValueError]. *)
Definition int_literal (s : string) : option Z :=
  match strip s with
  | String "+" r => int_limited r
  | String "-" r => Z.opp <$> int_limited r
  | r => int_limited r
  end.

Definition int (s : string) : exn + Z :=
  match int_literal s with
  | Some z => mret z
  | None => raise (ValueError_invalid_literal s)
  end.

(** [s.split(sep)] for a separator of one character: every occurrence
    splits, empty pieces are kept, and the result is never empty. *)
Fixpoint split (sep : ascii) (s : string) : list string :=
  match s with
  | EmptyString => [EmptyString]
  | String c s' =>
      if Ascii.eqb c sep then EmptyString :: split sep s'
      else match split sep s' with
           | p :: ps => String c p :: ps
           | [] => [String c EmptyString]
           end
  end.

(** [s.rpartition(sep)] for a separator of one character: the text before
    the last occurrence, the separator, the text after it; two empty strings
    and [s] when [sep] does not occur. *)
Fixpoint rpartition_last (sep : ascii) (s : string) : option (string * string) :=
  match s with
  | EmptyString => None
  | String c s' =>
      match rpartition_last sep s' with
      | Some (h, t) => Some (String c h, t)
      | None => if Ascii.eqb c sep then Some (EmptyString, s') else None
      end
  end.

Definition rpartition (sep : ascii) (s : string) : string * string * string :=
  match rpartition_last sep s with
  | Some (h, t) => (h, String sep EmptyString, t)
  | None => (EmptyString, EmptyString, s)
  end.

(** Whether a character occurs in a string. *)
Fixpoint occurs (c : ascii) (s : string) : bool :=
  match s with
  | EmptyString => false
  | String c' s' => Ascii.eqb c' c || occurs c s'
  end.

(** [s.startswith(p)] *)
Definition startswith (p s : string) : bool := String.prefix p s.

(** [str(n)] and [f"{n}"] for an [int]: the decimal digits, with a minus
    sign for a negative number. *)
Definition str_of_int (n : Z) : string := pretty n.

(** Attribute values stored in the objects of the catalog. *)
Inductive value :=
  | VStr (s : string)
  | VBool (b : bool)
  | VList (l : list string).

Inductive class := Container_class | DerivedContainer_class.

(** An object: its class and its [__dict__]. *)
Record object := Object {
  ob_class : class;
  ob_dict : gmap string value;
}.

(** [o.attr] *)
Definition getattr (o : object) (attr : string) : exn + value :=
  match ob_dict o !! attr with
  | Some v => mret v
  | None => raise (AttributeError attr)
  end.

End Py.

(** ** [bci_tester/data.py]: the image catalog *)

Module Data.
Import Py.

(** What the module reads from outside: [os.environ], the architecture
    reported by [LOCALHOST.system_info.arch] and the flag [DOCKER_SELECTED]
    of [bci_tester.runtime_choice]. *)
Record host := Host {
  environ : gmap string string;
  arch : string;
  DOCKER_SELECTED : bool;
}.

(** The module-level names that are bound to container descriptors. *)
Inductive name :=
  | BASE_CONTAINER | MINIMAL_CONTAINER | MICRO_CONTAINER
  | GO_1_16_CONTAINER | GO_1_17_CONTAINER
  | OPENJDK_11_CONTAINER | OPENJDK_DEVEL_11_CONTAINER
  | NODEJS_12_CONTAINER | NODEJS_14_CONTAINER
  | PYTHON36_CONTAINER | PYTHON39_CONTAINER
  | DOTNET_SDK_3_1_CONTAINER | DOTNET_SDK_5_0_CONTAINER | DOTNET_SDK_6_0_CONTAINER
  | DOTNET_ASPNET_3_1_CONTAINER | DOTNET_ASPNET_5_0_CONTAINER
  | DOTNET_ASPNET_6_0_CONTAINER
  | DOTNET_RUNTIME_3_1_CONTAINER | DOTNET_RUNTIME_5_0_CONTAINER
  | DOTNET_RUNTIME_6_0_CONTAINER
  | INIT_CONTAINER.

#[global] Instance name_eq_dec : EqDecision name.
Proof. solve_decision. Defined.

(** Modelled from the spec: the classes [Container] and [DerivedContainer]
    of the library [pytest_container], which is not part of the sources.  A
    descriptor has a remote URL or a build recipe (base and containerfile),
    extra launch arguments (none by default) and a default-entry-point flag
    (off by default).  Both constructors take keyword arguments and fill in
    the defaults of the attributes that are not given. *)
Definition ContainerBase_defaults : gmap string value :=
  {[ "extra_launch_args" := VList []; "default_entry_point" := VBool false ]}.

Definition Container (kwargs : gmap string value) : object :=
  Object Container_class (kwargs ∪ ContainerBase_defaults).

Definition DerivedContainer (kwargs : gmap string value) : object :=
  Object DerivedContainer_class (kwargs ∪ ContainerBase_defaults).

Definition DEFAULT_REGISTRY : string := "registry.suse.de".

(** [os.getenv("OS_VERSION", "15.3")] *)
Definition os_version (h : host) : string :=
  default "15.3" (environ h !! "OS_VERSION").

(** [a, b = (int(ver) for ver in parts)]: the generator is consumed one item
    at a time, so [int] runs on the first piece before the second is looked
    at, and on a third piece before "too many values" is reported. *)
Definition unpack_versions (parts : list string) : exn + (Z * Z) :=
  match parts with
  | [] => raise (ValueError_not_enough_values 0)
  | a :: rest =>
      major ← int a;
      match rest with
      | [] => raise (ValueError_not_enough_values 1)
      | b :: rest' =>
          sp ← int b;
          match rest' with
          | [] => mret (major, sp)
          | c :: _ => _ ← int c; raise ValueError_too_many_values
          end
      end
  end.

(** The [assert] of lines 34-36. *)
Definition assert_sle_15 (OS_MAJOR_VERSION : Z) : exn + unit :=
  if decide (OS_MAJOR_VERSION = 15) then mret ()
  else raise (AssertionError
    ("The tests are created for SLE 15 base images only, but got a request for SLE "
     +:+ str_of_int OS_MAJOR_VERSION)).

Definition base_url (OS_MAJOR_VERSION OS_SP_VERSION : Z) : string :=
  DEFAULT_REGISTRY +:+ "/suse/sle-" +:+ str_of_int OS_MAJOR_VERSION +:+ "-sp"
  +:+ str_of_int OS_SP_VERSION +:+ "/update/cr/totest/images".

Definition url_kw (url : string) : gmap string value := {[ "url" := VStr url ]}.

Definition sp3_images : string :=
  DEFAULT_REGISTRY +:+ "/suse/sle-15-sp3/update/cr/totest/images".

(** The bindings of lines 42-125, before any rewriting. *)
Definition containers_0 (OS_VERSION BASE_URL : string) (docker : bool)
    (n : name) : object :=
  match n with
  | BASE_CONTAINER => Container (url_kw (sp3_images +:+ "/suse/sle15:" +:+ OS_VERSION))
  | MINIMAL_CONTAINER => Container (url_kw (sp3_images +:+ "/bci/minimal:" +:+ OS_VERSION))
  | MICRO_CONTAINER => Container (url_kw (sp3_images +:+ "/bci/micro:" +:+ OS_VERSION))
  | GO_1_16_CONTAINER => Container (url_kw (sp3_images +:+ "/bci/golang:1.16"))
  | GO_1_17_CONTAINER => Container (url_kw (sp3_images +:+ "/bci/golang:1.17"))
  | OPENJDK_11_CONTAINER => Container (url_kw (sp3_images +:+ "/bci/openjdk:11"))
  | OPENJDK_DEVEL_11_CONTAINER =>
      Container (url_kw (sp3_images +:+ "/bci/openjdk-devel:11"))
  | NODEJS_12_CONTAINER => Container (url_kw (sp3_images +:+ "/bci/nodejs:12"))
  | NODEJS_14_CONTAINER => Container (url_kw (sp3_images +:+ "/bci/nodejs:14"))
  | PYTHON36_CONTAINER => Container (url_kw (sp3_images +:+ "/bci/python:3.6"))
  | PYTHON39_CONTAINER => Container (url_kw (sp3_images +:+ "/bci/python:3.9"))
  | DOTNET_SDK_3_1_CONTAINER => Container (url_kw (BASE_URL +:+ "/bci/dotnet-sdk:3.1"))
  | DOTNET_SDK_5_0_CONTAINER => Container (url_kw (BASE_URL +:+ "/bci/dotnet-sdk:5.0"))
  | DOTNET_SDK_6_0_CONTAINER => Container (url_kw (BASE_URL +:+ "/bci/dotnet-sdk:6.0"))
  | DOTNET_ASPNET_3_1_CONTAINER =>
      Container (url_kw (BASE_URL +:+ "/bci/dotnet-aspnet:3.1"))
  | DOTNET_ASPNET_5_0_CONTAINER =>
      Container (url_kw (BASE_URL +:+ "/bci/dotnet-aspnet:5.0"))
  | DOTNET_ASPNET_6_0_CONTAINER =>
      Container (url_kw (BASE_URL +:+ "/bci/dotnet-aspnet:6.0"))
  | DOTNET_RUNTIME_3_1_CONTAINER =>
      Container (url_kw (BASE_URL +:+ "/bci/dotnet-runtime:3.1"))
  | DOTNET_RUNTIME_5_0_CONTAINER =>
      Container (url_kw (BASE_URL +:+ "/bci/dotnet-runtime:5.0"))
  | DOTNET_RUNTIME_6_0_CONTAINER =>
      Container (url_kw (BASE_URL +:+ "/bci/dotnet-runtime:6.0"))
  | INIT_CONTAINER =>
      Container
        (<["extra_launch_args" :=
             VList (if docker
                    then ["--privileged"; "--tmpfs"; "/tmp"; "--tmpfs"; "/run";
                          "-v"; "/sys/fs/cgroup:/sys/fs/cgroup:ro,z";
                          "-e"; "container=docker"]
                    else [])]>
         (<["default_entry_point" := VBool true]>
          (url_kw (sp3_images +:+ "/bci/init:15.3"))))
  end.

(** The names of lines 146-165 and 172-192: the containers that come with
    the SLE_BCI repository configured. *)
Definition REPO_NAMES : list name :=
  [ BASE_CONTAINER; GO_1_16_CONTAINER; GO_1_17_CONTAINER;
    OPENJDK_11_CONTAINER; OPENJDK_DEVEL_11_CONTAINER;
    NODEJS_12_CONTAINER; NODEJS_14_CONTAINER;
    PYTHON36_CONTAINER; PYTHON39_CONTAINER;
    DOTNET_SDK_3_1_CONTAINER; DOTNET_SDK_5_0_CONTAINER; DOTNET_SDK_6_0_CONTAINER;
    DOTNET_ASPNET_3_1_CONTAINER; DOTNET_ASPNET_5_0_CONTAINER;
    DOTNET_ASPNET_6_0_CONTAINER;
    DOTNET_RUNTIME_3_1_CONTAINER; DOTNET_RUNTIME_5_0_CONTAINER;
    DOTNET_RUNTIME_6_0_CONTAINER;
    INIT_CONTAINER ].

Definition replace_repo_containerfile (BCI_DEVEL_REPO : string) : string :=
  "RUN sed -i 's|baseurl.*|baseurl=" +:+ BCI_DEVEL_REPO
  +:+ "|' /etc/zypp/repos.d/SLE_BCI.repo".

(** The dict comprehension of line 170. *)
Definition without_url (d : gmap string value) : gmap string value :=
  filter (λ kv, kv.1 ≠ "url") d.

(** One item of the generator of lines 167-171. *)
Definition replace_repo (containerfile : string) (cont : object) : exn + object :=
  url ← getattr cont "url";
  mret (DerivedContainer
          (<["base" := url]>
             (<["containerfile" := VStr containerfile]>
                (without_url (ob_dict cont))))).

(** The tuple assignment of lines 146-166: all values are produced from the
    old bindings first, then the names are rebound from left to right. *)
Definition rebind (targets : list name) (vals : list object)
    (g : name → object) : name → object :=
  foldl (λ g nv, <[nv.1 := nv.2]> g) g (zip targets vals).

Definition nl : string := String "010" EmptyString.
Definition dquote : string := String "034" EmptyString.

(** The containerfile of lines 198-208; the pieces are raw strings, so the
    backslashes stay in the text. *)
Definition repoclosure_containerfile (BCI_DEVEL_REPO : string) : string :=
  "RUN dnf -y install 'dnf-command(repoclosure)'" +:+ nl +:+
  "RUN rm -f /etc/yum.repos.d/*repo" +:+ nl +:+
  "RUN echo $'[SLE_BCI] \n\" +:+ nl +:+
  "enabled=1 \n\" +:+ nl +:+
  "name=" +:+ dquote +:+ "SLE BCI" +:+ dquote +:+ " \n\" +:+ nl +:+
  "autorefresh=0 \n\" +:+ nl +:+
  "baseurl=" +:+ BCI_DEVEL_REPO +:+ " \n\" +:+ nl +:+
  "priority=100' > /etc/yum.repos.d/SLE_BCI.repo" +:+ nl.

Definition DOTNET_NAMES : list name :=
  [ DOTNET_SDK_3_1_CONTAINER; DOTNET_SDK_5_0_CONTAINER; DOTNET_SDK_6_0_CONTAINER;
    DOTNET_ASPNET_3_1_CONTAINER; DOTNET_ASPNET_5_0_CONTAINER;
    DOTNET_ASPNET_6_0_CONTAINER;
    DOTNET_RUNTIME_3_1_CONTAINER; DOTNET_RUNTIME_5_0_CONTAINER;
    DOTNET_RUNTIME_6_0_CONTAINER ].

(** The first ten entries of [CONTAINERS_WITH_ZYPPER], lines 223-232. *)
Definition ZYPPER_NAMES : list name :=
  [ BASE_CONTAINER; GO_1_16_CONTAINER; GO_1_17_CONTAINER;
    OPENJDK_11_CONTAINER; OPENJDK_DEVEL_11_CONTAINER;
    NODEJS_12_CONTAINER; NODEJS_14_CONTAINER;
    PYTHON36_CONTAINER; PYTHON39_CONTAINER;
    INIT_CONTAINER ].

(** The name space of the module once its body has run. *)
Record module := Module_ {
  OS_VERSION : string;
  OS_MAJOR_VERSION : Z;
  OS_SP_VERSION : Z;
  OS_PRETTY_NAME : string;
  DOTNET_ARCH_SKIP_MARK : bool;          (* the condition given to skipif *)
  BASE_URL : string;
  BCI_DEVEL_REPO : string;
  REPLACE_REPO_CONTAINERFILE : option string;   (* bound in the else branch only *)
  containers : name → object;
  REPOCLOSURE_CONTAINER : object;
  DOTNET_CONTAINERS : list object;
  CONTAINERS_WITH_ZYPPER : list object;
  CONTAINERS_WITHOUT_ZYPPER : list object;
  ALL_CONTAINERS : list object;
}.

(** Lines 140-193. *)
Definition repo_override (h : host) (g : name → object)
    : exn + (string * option string * (name → object)) :=
  match environ h !! "BCI_DEVEL_REPO" with
  | None =>
      mret ("https://updates.suse.com/SUSE/Products/SLE-BCI/15-SP3/"
            +:+ arch h +:+ "/product/", None, g)
  | Some repo =>
      let containerfile := replace_repo_containerfile repo in
      vals ← mapM (replace_repo containerfile) (g <$> REPO_NAMES);
      mret (repo, Some containerfile, rebind REPO_NAMES vals g)
  end.

(** The module body, top to bottom. *)
Definition data_module (h : host) : exn + module :=
  let OS_VERSION := os_version h in
  versions ← unpack_versions (split "." OS_VERSION);
  let '(OS_MAJOR_VERSION, OS_SP_VERSION) := versions in
  let OS_PRETTY_NAME :=
    default ("SUSE Linux Enterprise Server " +:+ str_of_int OS_MAJOR_VERSION
             +:+ " SP" +:+ str_of_int OS_SP_VERSION)
            (environ h !! "OS_PRETTY_NAME") in
  let DOTNET_ARCH_SKIP_MARK := bool_decide (arch h ≠ "x86_64") in
  _ ← assert_sle_15 OS_MAJOR_VERSION;
  let BASE_URL := base_url OS_MAJOR_VERSION OS_SP_VERSION in
  let g0 := containers_0 OS_VERSION BASE_URL (DOCKER_SELECTED h) in
  rebound ← repo_override h g0;
  let '(BCI_DEVEL_REPO, REPLACE_REPO_CONTAINERFILE, g) := rebound in
  let REPOCLOSURE_CONTAINER :=
    DerivedContainer
      (<["base" := VStr "registry.fedoraproject.org/fedora:latest"]>
         {[ "containerfile" := VStr (repoclosure_containerfile BCI_DEVEL_REPO) ]}) in
  let DOTNET_CONTAINERS := g <$> DOTNET_NAMES in
  let CONTAINERS_WITH_ZYPPER :=
    (g <$> ZYPPER_NAMES)
    ++ (if decide (arch h = "x86_64") then DOTNET_CONTAINERS else []) in
  let CONTAINERS_WITHOUT_ZYPPER := [g MINIMAL_CONTAINER; g MICRO_CONTAINER] in
  mret (Module_ OS_VERSION OS_MAJOR_VERSION OS_SP_VERSION OS_PRETTY_NAME
          DOTNET_ARCH_SKIP_MARK BASE_URL BCI_DEVEL_REPO
          REPLACE_REPO_CONTAINERFILE g REPOCLOSURE_CONTAINER DOTNET_CONTAINERS
          CONTAINERS_WITH_ZYPPER CONTAINERS_WITHOUT_ZYPPER
          (CONTAINERS_WITH_ZYPPER ++ CONTAINERS_WITHOUT_ZYPPER)).

End Data.

(** ** [tests/test_base.py]: the verification rules *)

Module Tests.
Import Py.

(** [d[key]] on a dict *)
Definition getitem {V} (d : gmap string V) (key : string) : exn + V :=
  match d !! key with
  | Some v => mret v
  | None => raise (KeyError key)
  end.

(** Lines 64-69.  [baseurl] is [auto_container.container.baseurl], a string
    or [None]; [x and y] is false when [x] is [None] or empty. *)
Definition is_fips_ctr (baseurl : option string) : bool :=
  match baseurl with
  | None => false
  | Some url =>
      if decide (url = EmptyString) then false
      else startswith "bci-base-fips" (rpartition "/" url).2
  end.

(** Lines 73-100: the size limits of the base container per architecture,
    in MiB. *)
Definition base_container_max_size (OS_VERSION : string) (is_fips_ctr : bool)
    : gmap string Z :=
  if bool_decide (OS_VERSION ∈ ["basalt"; "tumbleweed"]) || is_fips_ctr then
    {[ "x86_64" := 132; "aarch64" := 158; "ppc64le" := 179; "s390x" := 136 ]}
  else if bool_decide (OS_VERSION ∈ ["15.6"]) then
    {[ "x86_64" := 139; "aarch64" := 160; "ppc64le" := 184; "s390x" := 141 ]}
  else if bool_decide (OS_VERSION ∈ ["15.4"; "15.5"]) then
    {[ "x86_64" := 124; "aarch64" := 143; "ppc64le" := 165; "s390x" := 127 ]}
  else
    {[ "x86_64" := 120; "aarch64" := 140; "ppc64le" := 160; "s390x" := 125 ]}.

(** The keys of each of the four tables. *)
Definition ARCHS : list string := ["x86_64"; "aarch64"; "ppc64le"; "s390x"].

(** Line 104: [base_container_max_size[LOCALHOST.system_info.arch]]. *)
Definition max_container_size (OS_VERSION : string) (baseurl : option string)
    (arch : string) : exn + Z :=
  getitem (base_container_max_size OS_VERSION (is_fips_ctr baseurl)) arch.

(** [test_base_size], lines 57-108; [image_size] is what the container
    runtime reports for the image, in bytes. *)
Definition test_base_size (OS_VERSION : string) (baseurl : option string)
    (arch : string) (image_size : Z) : exn + unit :=
  let container_size := image_size `div` (1024 * 1024) in
  max_size ← max_container_size OS_VERSION baseurl arch;
  if decide (container_size ≤ max_size)%Z then mret ()
  else raise (AssertionError
    ("Base container size is " +:+ str_of_int container_size +:+ " MiB for "
     +:+ arch +:+ " (expected max of " +:+ str_of_int max_size +:+ " MiB)")).

(** The OS versions that ship openssl 3 (lines 169 and 175). *)
Definition OPENSSL_3_VERSIONS : list string := ["basalt"; "tumbleweed"; "15.6"].

Section digests.
(** The tuples [ALL_DIGESTS] and [FIPS_DIGESTS] of [bci_tester.fips], and
    the results of its [host_fips_enabled()] and [target_fips_enforced()];
    that module is not part of the sources. *)
Variables ALL_DIGESTS FIPS_DIGESTS : list string.
Variables host_fips_enabled target_fips_enforced : bool.

(** Lines 166-176.  [+=] on a tuple builds a new tuple, so [ALL_DIGESTS]
    itself is left as it was. *)
Definition expected_digest_list (OS_VERSION : string) : list string :=
  let expected_digest_list := ALL_DIGESTS in
  let expected_digest_list :=
    if bool_decide (OS_VERSION ∈ OPENSSL_3_VERSIONS) then
      if host_fips_enabled || target_fips_enforced then FIPS_DIGESTS
      else expected_digest_list
    else expected_digest_list in
  let expected_digest_list :=
    if bool_decide (OS_VERSION ∉ OPENSSL_3_VERSIONS)
    then expected_digest_list ++ ["gost"]
    else expected_digest_list in
  expected_digest_list.

(** [test_all_openssl_hashes_known], lines 154-178; [hashes] is the output
    of [openssl list --digest-commands], split at white space. *)
Definition test_all_openssl_hashes_known (OS_VERSION : string)
    (hashes : list string) : exn + unit :=
  let expected := expected_digest_list OS_VERSION in
  if decide (length hashes = length expected) then
    if decide (list_to_set (C:=gset string) hashes = list_to_set expected)
    then mret ()
    else raise (AssertionError EmptyString)
  else raise (AssertionError EmptyString).
End digests.

End Tests.

(** ** [tests/test_base.py]: the gost check and the images under test *)

Module Parametrize.
Import Py.

#[global] Instance value_eq_dec : EqDecision value.
Proof. solve_decision. Defined.

#[global] Instance class_eq_dec : EqDecision class.
Proof. solve_decision. Defined.

(** [==] on two descriptors: same class and same attributes. *)
#[global] Instance object_eq_dec : EqDecision object.
Proof. solve_decision. Defined.

(** Lines 119-123 of [test_gost_digest_disable]: the message that
    [openssl gost /dev/null] is expected to print. *)
Definition openssl_error_message (OS_VERSION : string) : string :=
  if bool_decide (OS_VERSION ∈ ["basalt"; "tumbleweed"; "15.6"])
  then "Invalid command 'gost'"
  else "gost is not a known digest".

Section images.
(** [BASE_CONTAINER], [LTSS_BASE_CONTAINERS] and [LTSS_BASE_FIPS_CONTAINERS]
    as imported from [bci_tester.data] in lines 14-16. *)
Variable BASE_CONTAINER : object.
Variables LTSS_BASE_CONTAINERS LTSS_BASE_FIPS_CONTAINERS : list object.

(** Lines 27-31. *)
Definition CONTAINER_IMAGES : list object :=
  BASE_CONTAINER :: LTSS_BASE_CONTAINERS ++ LTSS_BASE_FIPS_CONTAINERS.

(** Line 135: the containers [test_openssl_hashes] runs on. *)
Definition openssl_hashes_containers : list object :=
  filter (λ c, c ∉ LTSS_BASE_FIPS_CONTAINERS) CONTAINER_IMAGES.

(** Line 148: the containers [test_openssl_fips_hashes] runs on. *)
Definition openssl_fips_hashes_containers : list object :=
  LTSS_BASE_FIPS_CONTAINERS.
End images.

End Parametrize.

(** ** The digest tables of [bci_tester/fips.py] *)

Module Fips.

(** Modelled from the spec: the digest tables of [bci_tester/fips.py], which
    is not among the sources.  The spec's DigestSet is "an ordered sequence
    of hash-algorithm names, with a FIPS-restricted subset"; the subset
    contains "only FIPS-approved names" and excludes "at least one digest
    present in the full list".  So a digest set is the full list, the
    judgement which names are FIPS-approved, and a name of the full list
    that is not. *)
Record DigestSet := {
  ALL_DIGESTS : list string;
  fips_approved : string → bool;
  excluded : string;
  excluded_listed : excluded ∈ ALL_DIGESTS;
  excluded_not_approved : fips_approved excluded = false;
}.

(** Modelled from the spec: [FIPS_DIGESTS] of [bci_tester/fips.py], "the
    FIPS-approved subset": the FIPS-approved names of the full list, in the
    order of the full list. *)
Definition FIPS_DIGESTS (ds : DigestSet) : list string :=
  filter (λ d, fips_approved ds d = true) (ALL_DIGESTS ds).

(** A small digest set for the examples: md5 is not FIPS-approved, sha256
    is. *)
Definition two_digests : DigestSet :=
  {| ALL_DIGESTS := ["md5"; "sha256"];
     fips_approved := λ d, bool_decide (d = "sha256");
     excluded := "md5";
     excluded_listed := list_elem_of_here "md5" ["sha256"];
     excluded_not_approved := eq_refl |}.

End Fips.

(** ** Facts about the builtins *)

(** Unfold the monad of raising code down to [inl] and [inr]. *)
Ltac exn_simpl :=
  repeat (progress (unfold mret, mbind, Py.exn_ret, Py.exn_bind, Py.raise in *; simpl in * )).

(** Split a membership in an explicit list into its cases. *)
Ltac elem_cases H :=
  repeat (apply elem_of_cons in H as [H|H]; [try subst|]);
  try (by apply elem_of_nil in H).

(** Membership and non-membership in an explicit list of strings. *)
Ltac in_list := repeat constructor.
Ltac not_in_list :=
  rewrite !not_elem_of_cons; repeat split; first [discriminate | apply not_elem_of_nil].

Section builtins.
Import Py.

Example int_15 : Py.int "15" = inr 15.
Proof. reflexivity. Qed.
Example int_spaces_sign : Py.int " +1_5 " = inr 15.
Proof. reflexivity. Qed.
Example int_neg : Py.int "-3" = inr (-3).
Proof. reflexivity. Qed.
Example int_codename : Py.int "tumbleweed" = inl (Py.ValueError_invalid_literal "tumbleweed").
Proof. reflexivity. Qed.
Example int_bad_underscore : Py.int "1__5" = inl (Py.ValueError_invalid_literal "1__5").
Proof. reflexivity. Qed.
Example int_nbsp : Py.int (String "160" "15") = inr 15.
Proof. reflexivity. Qed.
Example int_fs :
  Py.int (String "028" "15") = inl (Py.ValueError_invalid_literal (String "028" "15")).
Proof. reflexivity. Qed.
Example split_version : Py.split "." "15.3" = ["15"; "3"].
Proof. reflexivity. Qed.
Example split_empty_pieces : Py.split "." ".a." = [EmptyString; "a"; EmptyString].
Proof. reflexivity. Qed.
Example rpartition_url :
  Py.rpartition "/" "registry/bci/bci-base-fips:15.6" = ("registry/bci", "/", "bci-base-fips:15.6").
Proof. reflexivity. Qed.
Example str_of_int_neg : Py.str_of_int (-30) = "-30".
Proof. reflexivity. Qed.

Lemma split_not_nil sep s : split sep s ≠ [].
Proof.
  induction s as [|c s IH]; simpl; [done|].
  destruct (Ascii.eqb c sep); [done|]. by destruct (split sep s).
Qed.

Lemma split_no_sep sep s : occurs sep s = false → split sep s = [s].
Proof.
  induction s as [|c s IH]; simpl; [done|].
  destruct (Ascii.eqb c sep); simpl; [done|].
  intros Hs. by rewrite IH.
Qed.

Lemma int_inr s z : int s = inr z ↔ int_literal s = Some z.
Proof.
  unfold int. destruct (int_literal s); exn_simpl; split; intros; by simplify_eq.
Qed.

Lemma int_inl s e : int s = inl e → e = ValueError_invalid_literal s.
Proof. unfold int. destruct (int_literal s); exn_simpl; intros; by simplify_eq. Qed.

Lemma occurs_app c s t : occurs c (s +:+ t) = occurs c s || occurs c t.
Proof.
  induction s as [|c' s IH]; simpl; [done|]. by rewrite IH, orb_assoc.
Qed.

(** Two texts cut at their first occurrence of [c] agree piece by piece. *)
Lemma app_sep_inj c s1 s2 t1 t2 :
  occurs c s1 = false → occurs c s2 = false →
  s1 +:+ String c t1 = s2 +:+ String c t2 → s1 = s2 ∧ t1 = t2.
Proof.
  revert s2. induction s1 as [|a s1 IH]; intros [|b s2]; simpl.
  - intros _ _ [= ->]. done.
  - intros _ Hb [= <- _]. rewrite Ascii.eqb_refl in Hb. done.
  - intros Ha _ [= -> _]. rewrite Ascii.eqb_refl in Ha. done.
  - intros [??]%orb_false_elim [??]%orb_false_elim [= -> Heq].
    destruct (IH s2) as [-> ->]; done.
Qed.

Lemma append_assoc s t u : (s +:+ t) +:+ u = s +:+ t +:+ u.
Proof.
  induction s as [|c s IH]; [done|].
  change (String c ((s +:+ t) +:+ u) = String c (s +:+ t +:+ u)). by rewrite IH.
Qed.

Lemma prefix_append p s : String.prefix p (p +:+ s) = true.
Proof.
  induction p as [|c p IH]; [by destruct s|].
  change (String.prefix (String c p) (String c (p +:+ s)) = true).
  unfold String.prefix; fold String.prefix.
  destruct (ascii_dec c c); [done|congruence].
Qed.

(** The decimal text of a number is made of digits and at most a sign. *)
Lemma pretty_N_char_no_slash x : Ascii.eqb (pretty_N_char x) "/" = false.
Proof. unfold pretty_N_char. by repeat case_match. Qed.

Lemma pretty_N_go_no_slash x s :
  occurs "/" s = false → occurs "/" (pretty_N_go x s) = false.
Proof.
  revert s. induction (N.lt_wf_0 x) as [x _ IH]; intros s Hs.
  destruct (decide (x = 0%N)) as [->|Hx].
  - by rewrite pretty_N_go_0.
  - rewrite pretty_N_go_step by lia. apply IH.
    + apply N.div_lt; lia.
    + simpl. by rewrite pretty_N_char_no_slash.
Qed.

Lemma str_of_int_no_slash n : occurs "/" (str_of_int n) = false.
Proof.
  unfold str_of_int, pretty, pretty_Z.
  destruct n as [|p|p]; [done| |].
  - unfold pretty, pretty_positive, pretty, pretty_N.
    case_decide; [done|]. by apply pretty_N_go_no_slash.
  - rewrite occurs_app. simpl.
    unfold pretty, pretty_positive, pretty, pretty_N.
    case_decide; [done|]. by apply pretty_N_go_no_slash.
Qed.

End builtins.

(** ** The verification rules of [tests/test_base.py] *)

Section rules.
Import Py Tests.

Lemma base_container_max_size_cases OS_VERSION fips :
  let table := base_container_max_size OS_VERSION fips in
  table = {[ "x86_64" := 132; "aarch64" := 158; "ppc64le" := 179; "s390x" := 136 ]}
  ∨ table = {[ "x86_64" := 139; "aarch64" := 160; "ppc64le" := 184; "s390x" := 141 ]}
  ∨ table = {[ "x86_64" := 124; "aarch64" := 143; "ppc64le" := 165; "s390x" := 127 ]}
  ∨ table = {[ "x86_64" := 120; "aarch64" := 140; "ppc64le" := 160; "s390x" := 125 ]}.
Proof. unfold base_container_max_size. repeat case_match; auto. Qed.

(** Every table of [base_container_max_size] has the same four keys. *)
Lemma base_container_max_size_lookup OS_VERSION fips arch :
  match base_container_max_size OS_VERSION fips !! arch with
  | Some n => arch ∈ ARCHS ∧ 0 < n
  | None => arch ∉ ARCHS
  end.
Proof.
  unfold ARCHS.
  destruct (base_container_max_size_cases OS_VERSION fips) as [-> | [-> | [-> | ->] ] ];
    destruct (_ !! arch) as [n|] eqn:Hlook.
  all: first
    [ repeat (apply lookup_insert_Some in Hlook as [ [? ?] | [? Hlook] ]);
      try (apply lookup_singleton_Some in Hlook as [? ?]);
      subst; (split; [repeat constructor|lia])
    | repeat (apply lookup_insert_None in Hlook as [Hlook ?]);
      apply lookup_singleton_None in Hlook;
      rewrite !not_elem_of_cons; repeat split; first [done|apply not_elem_of_nil] ].
Qed.

Lemma expected_digest_list_openssl_3 ALL FIPS host target OS_VERSION :
  OS_VERSION ∈ OPENSSL_3_VERSIONS →
  expected_digest_list ALL FIPS host target OS_VERSION
  = if host || target then FIPS else ALL.
Proof.
  intros Hin. unfold expected_digest_list.
  rewrite (bool_decide_eq_true_2 _ Hin).
  rewrite bool_decide_eq_false_2 by (intros Hn; by apply Hn).
  done.
Qed.

Lemma expected_digest_list_openssl_1 ALL FIPS host target OS_VERSION :
  OS_VERSION ∉ OPENSSL_3_VERSIONS →
  expected_digest_list ALL FIPS host target OS_VERSION = ALL ++ ["gost"].
Proof.
  intros Hin. unfold expected_digest_list.
  rewrite (bool_decide_eq_false_2 _ Hin).
  by rewrite (bool_decide_eq_true_2 _ Hin).
Qed.

Lemma app_singleton_neq {A} (l : list A) x : l ++ [x] ≠ l.
Proof.
  intros Heq. apply (f_equal length) in Heq.
  rewrite length_app in Heq. simpl in Heq. lia.
Qed.

Example size_limit_15_6_aarch64 : max_container_size "15.6" None "aarch64" = inr 160.
Proof. reflexivity. Qed.
Example size_limit_fips_ctr :
  max_container_size "15.4" (Some "registry.suse.com/bci/bci-base-fips:15.4") "s390x"
  = inr 136.
Proof. reflexivity. Qed.
Example size_limit_default_bucket : max_container_size "15.3" None "x86_64" = inr 120.
Proof. reflexivity. Qed.
Example size_test_over_limit :
  test_base_size "15.3" None "x86_64" (121 * 1024 * 1024)
  = inl (AssertionError
      "Base container size is 121 MiB for x86_64 (expected max of 120 MiB)").
Proof. reflexivity. Qed.
Example digests_15_5 :
  expected_digest_list ["md5"; "sha256"] ["sha256"] false false "15.5"
  = ["md5"; "sha256"; "gost"].
Proof. reflexivity. Qed.
Example digests_test_15_5 :
  test_all_openssl_hashes_known ["md5"; "sha256"] ["sha256"] false false "15.5"
    ["gost"; "md5"; "sha256"] = inr ().
Proof. reflexivity. Qed.
Example digests_15_6_fips :
  expected_digest_list ["md5"; "sha256"] ["sha256"] true false "15.6" = ["sha256"].
Proof. reflexivity. Qed.

(** C5: for every OS version and base URL (hence for every bucket of the
    size table) and every architecture among x86_64, aarch64, ppc64le and
    s390x, the size-limit lookup returns one positive integer; for any other
    architecture it raises [KeyError]. *)
Theorem size_limit_lookup (OS_VERSION : string) (baseurl : option string)
    (arch : string) :
  (arch ∈ ARCHS →
     ∃ n, max_container_size OS_VERSION baseurl arch = inr n ∧ 0 < n) ∧
  (arch ∉ ARCHS →
     max_container_size OS_VERSION baseurl arch = inl (KeyError arch)).
Proof.
  unfold max_container_size, getitem.
  pose proof (base_container_max_size_lookup OS_VERSION (is_fips_ctr baseurl) arch)
    as Hlook.
  destruct (_ !! arch) as [n|]; exn_simpl; split.
  - intros _. exists n. by destruct Hlook.
  - intros Hnot. by destruct Hlook.
  - intros Hin. done.
  - done.
Qed.

Lemma size_limit_lookup_witness :
  (∃ n, max_container_size "15.6" None "aarch64" = inr n ∧ 0 < n) ∧
  max_container_size "tumbleweed" None "riscv64" = inl (KeyError "riscv64").
Proof.
  split.
  - apply (proj1 (size_limit_lookup "15.6" None "aarch64")).
    unfold ARCHS. in_list.
  - apply (proj2 (size_limit_lookup "tumbleweed" None "riscv64")).
    unfold ARCHS. not_in_list.
Defined.

(** C3, as stated, fails: on an OS version outside basalt, tumbleweed and
    15.6 the list computed without any FIPS flag is never [ALL_DIGESTS],
    whatever that tuple holds. *)
Lemma digest_lookup_no_fips_counterexample :
  ¬ ∃ ALL_DIGESTS FIPS_DIGESTS : list string,
      expected_digest_list ALL_DIGESTS FIPS_DIGESTS false false "15.5" = ALL_DIGESTS.
Proof.
  intros (ALL & FIPS & Heq).
  rewrite expected_digest_list_openssl_1 in Heq.
  - by apply app_singleton_neq in Heq.
  - unfold OPENSSL_3_VERSIONS. not_in_list.
Qed.

(** C3, amended: on basalt, tumbleweed and 15.6 the list computed with both
    FIPS flags off is [ALL_DIGESTS], and on every other OS version it is
    [ALL_DIGESTS] followed by "gost", whatever the flags; on basalt,
    tumbleweed and 15.6 with either FIPS flag on it is [FIPS_DIGESTS], which
    is a strict subset of the full list and contains only FIPS-approved
    names. *)
Theorem digest_lookup (ds : Fips.DigestSet)
    (host_fips_enabled target_fips_enforced : bool) (OS_VERSION : string) :
  let lookup host target :=
    expected_digest_list (Fips.ALL_DIGESTS ds) (Fips.FIPS_DIGESTS ds)
      host target OS_VERSION in
  (OS_VERSION ∈ OPENSSL_3_VERSIONS →
     lookup false false = Fips.ALL_DIGESTS ds ∧
     (host_fips_enabled || target_fips_enforced = true →
        lookup host_fips_enabled target_fips_enforced = Fips.FIPS_DIGESTS ds ∧
        (∀ d, d ∈ lookup host_fips_enabled target_fips_enforced →
              d ∈ Fips.ALL_DIGESTS ds ∧ Fips.fips_approved ds d = true) ∧
        (∃ d, d ∈ Fips.ALL_DIGESTS ds ∧
              d ∉ lookup host_fips_enabled target_fips_enforced))) ∧
  (OS_VERSION ∉ OPENSSL_3_VERSIONS →
     lookup host_fips_enabled target_fips_enforced
     = Fips.ALL_DIGESTS ds ++ ["gost"]).
Proof.
  intros lookup. unfold lookup. split.
  - intros Hin. rewrite !expected_digest_list_openssl_3 by done. simpl.
    split; [done|]. intros ->. split; [done|]. split.
    + intros d [Happroved Hlisted]%list_elem_of_filter. done.
    + exists (Fips.excluded ds). split; [apply Fips.excluded_listed|].
      intros [Happroved _]%list_elem_of_filter.
      by rewrite Fips.excluded_not_approved in Happroved.
  - apply expected_digest_list_openssl_1.
Qed.

Lemma digest_lookup_witness :
  (expected_digest_list ["md5"; "sha256"] ["sha256"] false false "15.6"
   = ["md5"; "sha256"] ∧
   expected_digest_list ["md5"; "sha256"] ["sha256"] true false "15.6"
   = ["sha256"] ∧
   ∃ d, d ∈ ["md5"; "sha256"] ∧
        d ∉ expected_digest_list ["md5"; "sha256"] ["sha256"] true false "15.6") ∧
  expected_digest_list ["md5"; "sha256"] ["sha256"] true false "15.5"
  = ["md5"; "sha256"; "gost"].
Proof.
  pose proof (digest_lookup Fips.two_digests true false "15.6") as [H3 _].
  pose proof (digest_lookup Fips.two_digests true false "15.5") as [_ H1].
  split.
  - destruct H3 as [Hall Hfips]; [unfold OPENSSL_3_VERSIONS; in_list|].
    destruct (Hfips eq_refl) as (Hnarrow & _ & Hstrict).
    split; [exact Hall|]. split; [exact Hnarrow|]. exact Hstrict.
  - apply H1. unfold OPENSSL_3_VERSIONS. not_in_list.
Defined.

(** C4, as stated, fails: on 15.6 nothing is appended to [ALL_DIGESTS], and
    on 15.5 something is. *)
Lemma gost_appended_counterexample :
  (¬ ∃ ALL_DIGESTS FIPS_DIGESTS : list string,
       expected_digest_list ALL_DIGESTS FIPS_DIGESTS false false "15.6"
       = ALL_DIGESTS ++ ["gost"]) ∧
  (¬ ∃ ALL_DIGESTS FIPS_DIGESTS : list string,
       expected_digest_list ALL_DIGESTS FIPS_DIGESTS false false "15.5"
       = ALL_DIGESTS).
Proof.
  split; intros (ALL & FIPS & Heq).
  - rewrite expected_digest_list_openssl_3 in Heq.
    + simpl in Heq. symmetry in Heq. by apply app_singleton_neq in Heq.
    + unfold OPENSSL_3_VERSIONS. in_list.
  - rewrite expected_digest_list_openssl_1 in Heq.
    + by apply app_singleton_neq in Heq.
    + unfold OPENSSL_3_VERSIONS. not_in_list.
Qed.

(** C4, amended: on every OS version other than basalt, tumbleweed and 15.6
    exactly one name, "gost", is appended to [ALL_DIGESTS], whatever the
    FIPS flags; on basalt, tumbleweed and 15.6 nothing is appended: the list
    is [ALL_DIGESTS], or [FIPS_DIGESTS] when a FIPS flag is on. *)
Theorem gost_appended (ALL_DIGESTS FIPS_DIGESTS : list string)
    (host_fips_enabled target_fips_enforced : bool) (OS_VERSION : string) :
  let expected :=
    expected_digest_list ALL_DIGESTS FIPS_DIGESTS
      host_fips_enabled target_fips_enforced OS_VERSION in
  (OS_VERSION ∉ OPENSSL_3_VERSIONS →
     expected = ALL_DIGESTS ++ ["gost"] ∧
     length expected = S (length ALL_DIGESTS)) ∧
  (OS_VERSION ∈ OPENSSL_3_VERSIONS →
     expected = if host_fips_enabled || target_fips_enforced
                then FIPS_DIGESTS else ALL_DIGESTS).
Proof.
  simpl. split.
  - intros Hnot. rewrite expected_digest_list_openssl_1 by done.
    split; [done|]. rewrite length_app. simpl. lia.
  - apply expected_digest_list_openssl_3.
Qed.

Lemma gost_appended_witness :
  expected_digest_list ["md5"; "sha256"] ["sha256"] false false "15.3"
  = ["md5"; "sha256"; "gost"] ∧
  expected_digest_list ["md5"; "sha256"] ["sha256"] false false "tumbleweed"
  = ["md5"; "sha256"].
Proof.
  split.
  - apply (proj1 (gost_appended ["md5"; "sha256"] ["sha256"] false false "15.3")).
    unfold OPENSSL_3_VERSIONS. not_in_list.
  - apply (proj2 (gost_appended ["md5"; "sha256"] ["sha256"] false false "tumbleweed")).
    unfold OPENSSL_3_VERSIONS. in_list.
Defined.

End rules.

(** ** The image catalog of [bci_tester/data.py] *)

Section catalog.
Import Py Data.

Lemma bind_inr {A B} (f : A → exn + B) (x : A) : (inr x ≫= f) = f x.
Proof. done. Qed.

Lemma bind_inl {A B} (f : A → exn + B) (e : exn) : (inl e ≫= f) = inl e.
Proof. done. Qed.

(** *** Version parsing *)

Lemma unpack_versions_inr parts major sp :
  unpack_versions parts = inr (major, sp) ↔
  ∃ a b, parts = [a; b] ∧ int_literal a = Some major ∧ int_literal b = Some sp.
Proof.
  unfold unpack_versions. split.
  - destruct parts as [|a [|b [|c rest]]]; [done| | |].
    + destruct (int a); exn_simpl; done.
    + destruct (int a) eqn:Ha; exn_simpl; [done|].
      destruct (int b) eqn:Hb; exn_simpl; [done|].
      intros [= -> ->]. apply int_inr in Ha, Hb. eauto.
    + destruct (int a); exn_simpl; [done|].
      destruct (int b); exn_simpl; [done|].
      destruct (int c); exn_simpl; done.
  - intros (a & b & -> & Ha%int_inr & Hb%int_inr). by rewrite Ha, bind_inr, Hb.
Qed.

Lemma unpack_versions_inl parts e :
  unpack_versions parts = inl e → is_ValueError e = true.
Proof.
  unfold unpack_versions.
  destruct parts as [|a [|b [|c rest]]]; [by intros [= <-]|..].
  - destruct (int a) eqn:Ha; exn_simpl; intros [= <-]; [|done].
    by rewrite (int_inl _ _ Ha).
  - destruct (int a) eqn:Ha; exn_simpl; [intros [= <-]; by rewrite (int_inl _ _ Ha)|].
    destruct (int b) eqn:Hb; exn_simpl; [intros [= <-]; by rewrite (int_inl _ _ Hb)|].
    done.
  - destruct (int a) eqn:Ha; exn_simpl; [intros [= <-]; by rewrite (int_inl _ _ Ha)|].
    destruct (int b) eqn:Hb; exn_simpl; [intros [= <-]; by rewrite (int_inl _ _ Hb)|].
    destruct (int c) eqn:Hc; exn_simpl; intros [= <-]; [|done].
    by rewrite (int_inl _ _ Hc).
Qed.

(** A version string without a dot is one piece, and one piece is not
    enough. *)
Lemma unpack_versions_no_dot s :
  occurs "." s = false →
  ∃ e, unpack_versions (split "." s) = inl e ∧ is_ValueError e = true.
Proof.
  intros Hs. rewrite (split_no_sep _ _ Hs).
  destruct (unpack_versions [s]) as [e|[major sp]] eqn:Hu.
  - exists e. eauto using unpack_versions_inl.
  - apply unpack_versions_inr in Hu as (a & b & [=] & _).
Qed.

(** *** Raising code over lists, and tuple assignment *)

Lemma mapM_inr {A B} (f : A → exn + B) (l : list A) :
  Forall (λ x, ∃ y, f x = inr y) l →
  ∃ k, mapM f l = inr k ∧ Forall2 (λ x y, f x = inr y) l k.
Proof.
  induction 1 as [|x l [y Hy] _ (k & Hk & IH)]; simpl.
  - by exists [].
  - exists (y :: k). rewrite Hy, bind_inr, Hk, bind_inr. split; [done|].
    by constructor.
Qed.

Lemma rebind_cons n ns v vs g :
  rebind (n :: ns) (v :: vs) g = rebind ns vs (<[n := v]> g).
Proof. done. Qed.

Lemma rebind_spec (P : name → object → Prop) targets vals g :
  NoDup targets → Forall2 P targets vals →
  (∀ n, n ∈ targets → P n (rebind targets vals g n)) ∧
  (∀ n, n ∉ targets → rebind targets vals g n = g n).
Proof.
  intros Hdup HP. revert g Hdup.
  induction HP as [|n v ns vs Hnv _ IH]; intros g Hdup.
  - split; [by intros n ?%elem_of_nil|done].
  - apply NoDup_cons in Hdup as [Hn Hdup]. rewrite rebind_cons.
    destruct (IH (<[n := v]> g) Hdup) as [IHin IHout]. split.
    + intros m [->|Hm]%elem_of_cons; [|by apply IHin].
      rewrite (IHout n Hn). by rewrite fn_lookup_insert.
    + intros m [Hmn Hm]%not_elem_of_cons.
      rewrite (IHout m Hm). by rewrite fn_lookup_insert_ne.
Qed.

(** *** Rewriting one descriptor *)

Lemma defaults_no_url : ContainerBase_defaults !! "url" = None.
Proof. done. Qed.

Lemma without_url_url d : without_url d !! "url" = None.
Proof.
  unfold without_url. apply map_lookup_filter_None. right. intros v _ Hne.
  by apply Hne.
Qed.

Lemma without_url_other d k : k ≠ "url" → without_url d !! k = d !! k.
Proof.
  intros Hk. unfold without_url. destruct (d !! k) as [v|] eqn:Hd.
  - by apply map_lookup_filter_Some.
  - apply map_lookup_filter_None. by left.
Qed.

Lemma replace_repo_inr containerfile cont cont' :
  replace_repo containerfile cont = inr cont' ↔
  ∃ url, ob_dict cont !! "url" = Some url ∧
         cont' = DerivedContainer
                   (<["base" := url]>
                      (<["containerfile" := VStr containerfile]>
                         (without_url (ob_dict cont)))).
Proof.
  unfold replace_repo, getattr.
  destruct (ob_dict cont !! "url") as [url|]; exn_simpl; split.
  - intros [= <-]. eauto.
  - by intros (? & [= <-] & ->).
  - done.
  - by intros (? & [=] & _).
Qed.

(** What one item of the generator keeps and what it changes. *)
Lemma replace_repo_attrs containerfile cont cont' :
  replace_repo containerfile cont = inr cont' →
  ob_class cont' = DerivedContainer_class ∧
  is_Some (ob_dict cont !! "url") ∧
  ob_dict cont' !! "base" = ob_dict cont !! "url" ∧
  ob_dict cont' !! "containerfile" = Some (VStr containerfile) ∧
  ob_dict cont' !! "url" = None ∧
  ∀ k, k ∉ ["url"; "base"; "containerfile"] →
       ob_dict cont' !! k = (ob_dict cont ∪ ContainerBase_defaults) !! k.
Proof.
  intros (url & Hurl & ->)%replace_repo_inr. simpl.
  split; [done|]. split; [by eexists|]. split; [|split; [|split]].
  - rewrite Hurl. apply lookup_union_Some_l. by rewrite lookup_insert_eq.
  - apply lookup_union_Some_l.
    rewrite lookup_insert_ne by done. by rewrite lookup_insert_eq.
  - apply lookup_union_None. split; [|done].
    rewrite !lookup_insert_ne by done. apply without_url_url.
  - intros k Hk. rewrite !not_elem_of_cons in Hk.
    destruct Hk as (Hurlk & Hbase & Hcf & _).
    rewrite !lookup_union, !lookup_insert_ne by done.
    by rewrite without_url_other.
Qed.

(** An object built by [Container] already carries the defaults. *)
Lemma Container_defaults kwargs :
  ob_dict (Container kwargs) ∪ ContainerBase_defaults = ob_dict (Container kwargs).
Proof.
  simpl. rewrite <-(assoc_L (∪)). by rewrite map_union_idemp.
Qed.

(** *** The bindings before and after the override *)

Lemma containers_0_Container OS_VERSION BASE_URL docker n :
  ∃ kwargs url,
    containers_0 OS_VERSION BASE_URL docker n = Container kwargs ∧
    kwargs !! "url" = Some (VStr url).
Proof. destruct n; do 2 eexists; (split; [reflexivity|reflexivity]). Qed.

Lemma containers_0_url OS_VERSION BASE_URL docker n :
  is_Some (ob_dict (containers_0 OS_VERSION BASE_URL docker n) !! "url").
Proof.
  destruct (containers_0_Container OS_VERSION BASE_URL docker n)
    as (kwargs & url & -> & Hurl).
  exists (VStr url). by apply lookup_union_Some_l.
Qed.

Lemma REPO_NAMES_NoDup : NoDup REPO_NAMES.
Proof. apply (bool_decide_unpack _). by vm_compute. Qed.

Lemma REPO_NAMES_spec n :
  n ∈ REPO_NAMES ↔ n ≠ MINIMAL_CONTAINER ∧ n ≠ MICRO_CONTAINER.
Proof.
  unfold REPO_NAMES. split.
  - intros Hn. elem_cases Hn; done.
  - intros [? ?]. destruct n; first [done | in_list].
Qed.

Lemma repo_override_unset h g :
  environ h !! "BCI_DEVEL_REPO" = None →
  repo_override h g
  = inr ("https://updates.suse.com/SUSE/Products/SLE-BCI/15-SP3/"
         +:+ arch h +:+ "/product/", None, g).
Proof. unfold repo_override. by intros ->. Qed.

Lemma repo_override_set h g repo :
  environ h !! "BCI_DEVEL_REPO" = Some repo →
  (∀ n, n ∈ REPO_NAMES → is_Some (ob_dict (g n) !! "url")) →
  ∃ g', repo_override h g
        = inr (repo, Some (replace_repo_containerfile repo), g') ∧
        (∀ n, n ∈ REPO_NAMES →
              replace_repo (replace_repo_containerfile repo) (g n) = inr (g' n)) ∧
        (∀ n, n ∉ REPO_NAMES → g' n = g n).
Proof.
  intros Henv Hurl. unfold repo_override. rewrite Henv.
  set (cf := replace_repo_containerfile repo).
  destruct (mapM_inr (replace_repo cf) (g <$> REPO_NAMES)) as (vals & -> & Hvals).
  { apply Forall_fmap, Forall_forall. intros n [url Hn]%Hurl. simpl.
    eexists. apply replace_repo_inr. eauto. }
  apply Forall2_fmap_l in Hvals.
  destruct (rebind_spec (λ n v, replace_repo cf (g n) = inr v)
              REPO_NAMES vals g REPO_NAMES_NoDup Hvals) as [Hin Hout].
  exists (rebind REPO_NAMES vals g). by rewrite bind_inr.
Qed.

Lemma assert_sle_15_inr major : assert_sle_15 major = inr () ↔ major = 15.
Proof. unfold assert_sle_15. case_decide; exn_simpl; naive_solver. Qed.

Lemma assert_sle_15_inl major :
  major ≠ 15 →
  assert_sle_15 major
  = inl (AssertionError
      ("The tests are created for SLE 15 base images only, but got a request for SLE "
       +:+ str_of_int major)).
Proof. intros Hne. unfold assert_sle_15. by case_decide. Qed.

(** The module body stops at the first statement that raises. *)
Lemma data_module_parse_error h e :
  unpack_versions (split "." (os_version h)) = inl e → data_module h = inl e.
Proof. intros Hp. unfold data_module. by rewrite Hp. Qed.

Lemma data_module_assert_error h major sp :
  unpack_versions (split "." (os_version h)) = inr (major, sp) →
  major ≠ 15 →
  data_module h
  = inl (AssertionError
      ("The tests are created for SLE 15 base images only, but got a request for SLE "
       +:+ str_of_int major)).
Proof.
  intros Hp Hne. unfold data_module. rewrite Hp, bind_inr.
  cbv beta iota zeta. by rewrite (assert_sle_15_inl _ Hne).
Qed.

(** Once the version is accepted, the rest of the body runs to its end. *)
Lemma data_module_runs h sp repo cf g :
  unpack_versions (split "." (os_version h)) = inr (15, sp) →
  repo_override h
    (containers_0 (os_version h) (base_url 15 sp) (DOCKER_SELECTED h))
  = inr (repo, cf, g) →
  ∃ m, data_module h = inr m ∧
       OS_VERSION m = os_version h ∧
       OS_MAJOR_VERSION m = 15 ∧
       OS_SP_VERSION m = sp ∧
       DOTNET_ARCH_SKIP_MARK m = bool_decide (arch h ≠ "x86_64") ∧
       BASE_URL m = base_url 15 sp ∧
       BCI_DEVEL_REPO m = repo ∧
       REPLACE_REPO_CONTAINERFILE m = cf ∧
       containers m = g ∧
       REPOCLOSURE_CONTAINER m
       = DerivedContainer
           (<["base" := VStr "registry.fedoraproject.org/fedora:latest"]>
              {[ "containerfile" := VStr (repoclosure_containerfile repo) ]}) ∧
       DOTNET_CONTAINERS m = g <$> DOTNET_NAMES ∧
       CONTAINERS_WITH_ZYPPER m
       = (g <$> ZYPPER_NAMES)
         ++ (if decide (arch h = "x86_64") then g <$> DOTNET_NAMES else []) ∧
       CONTAINERS_WITHOUT_ZYPPER m = [g MINIMAL_CONTAINER; g MICRO_CONTAINER] ∧
       ALL_CONTAINERS m = CONTAINERS_WITH_ZYPPER m ++ CONTAINERS_WITHOUT_ZYPPER m.
Proof.
  intros Hp Hr. unfold data_module. rewrite Hp, bind_inr.
  cbv beta iota zeta. rewrite (proj2 (assert_sle_15_inr 15) eq_refl), bind_inr.
  rewrite Hr, bind_inr. cbv beta iota zeta.
  eexists. split; [reflexivity|]. simpl. repeat split; reflexivity.
Qed.

Lemma repo_override_total h OS_VERSION BASE_URL docker :
  ∃ repo cf g,
    repo_override h (containers_0 OS_VERSION BASE_URL docker) = inr (repo, cf, g).
Proof.
  destruct (environ h !! "BCI_DEVEL_REPO") as [repo|] eqn:Henv.
  - destruct (repo_override_set h (containers_0 OS_VERSION BASE_URL docker) repo Henv)
      as (g & Hg & _); [|by eauto].
    intros n _. apply containers_0_url.
  - rewrite (repo_override_unset _ _ Henv). eauto.
Qed.

(** The module body runs to its end exactly on the accepted versions. *)
Lemma data_module_inr_iff h :
  (∃ m, data_module h = inr m) ↔
  ∃ sp, unpack_versions (split "." (os_version h)) = inr (15, sp).
Proof.
  split.
  - intros [m Hm].
    destruct (unpack_versions (split "." (os_version h))) as [e|[major sp]] eqn:Hp.
    + by rewrite (data_module_parse_error _ _ Hp) in Hm.
    + destruct (decide (major = 15)) as [->|Hne]; [by eauto|].
      by rewrite (data_module_assert_error _ _ _ Hp Hne) in Hm.
  - intros [sp Hp].
    destruct (repo_override_total h (os_version h) (base_url 15 sp) (DOCKER_SELECTED h))
      as (repo & cf & g & Hr).
    destruct (data_module_runs _ _ _ _ _ Hp Hr) as (m & Hm & _). eauto.
Qed.

(** *** The URLs of the .NET images differ from all the others *)

Lemma base_url_15 sp :
  base_url 15 sp
  = "registry.suse.de/suse/sle-15-sp" +:+ str_of_int sp +:+ "/update/cr/totest/images".
Proof. reflexivity. Qed.

Lemma dotnet_url_neq sp x t :
  String.prefix "/bci/dotnet-" t = false →
  base_url 15 sp +:+ "/bci/dotnet-" +:+ x ≠ sp3_images +:+ t.
Proof.
  intros Ht Heq. rewrite base_url_15, !append_assoc in Heq.
  change (sp3_images +:+ t)
    with ("registry.suse.de/suse/sle-15-sp"
          +:+ "3" +:+ String "/" ("update/cr/totest/images" +:+ t)) in Heq.
  apply (inj (String.app _)) in Heq.
  change ("/update/cr/totest/images" +:+ "/bci/dotnet-" +:+ x)
    with (String "/" ("update/cr/totest/images" +:+ "/bci/dotnet-" +:+ x)) in Heq.
  apply app_sep_inj in Heq as [_ Heq];
    [|apply str_of_int_no_slash|reflexivity].
  apply (inj (String.app _)) in Heq. subst t.
  by rewrite prefix_append in Ht.
Qed.

Lemma dotnet_url OS_VERSION BASE_URL docker n :
  n ∈ DOTNET_NAMES →
  ∃ x, ob_dict (containers_0 OS_VERSION BASE_URL docker n) !! "url"
       = Some (VStr (BASE_URL +:+ "/bci/dotnet-" +:+ x)).
Proof.
  unfold DOTNET_NAMES. intros Hn. elem_cases Hn; eexists; reflexivity.
Qed.

Lemma zypper_url OS_VERSION BASE_URL docker n :
  n ∈ ZYPPER_NAMES →
  ∃ t, ob_dict (containers_0 OS_VERSION BASE_URL docker n) !! "url"
       = Some (VStr (sp3_images +:+ t)) ∧
       String.prefix "/bci/dotnet-" t = false.
Proof.
  unfold ZYPPER_NAMES. intros Hn.
  elem_cases Hn; eexists; (split; [reflexivity|reflexivity]).
Qed.

Lemma dotnet_zypper_url_neq OS_VERSION sp docker d z :
  d ∈ DOTNET_NAMES → z ∈ ZYPPER_NAMES →
  let g0 := containers_0 OS_VERSION (base_url 15 sp) docker in
  ob_dict (g0 d) !! "url" ≠ ob_dict (g0 z) !! "url".
Proof.
  intros [x Hd]%(dotnet_url OS_VERSION (base_url 15 sp) docker)
         (t & Hz & Ht)%(zypper_url OS_VERSION (base_url 15 sp) docker).
  simpl. rewrite Hd, Hz. intros Heq.
  apply (dotnet_url_neq sp x t Ht). congruence.
Qed.

Lemma DOTNET_NAMES_REPO n : n ∈ DOTNET_NAMES → n ∈ REPO_NAMES.
Proof. unfold DOTNET_NAMES, REPO_NAMES. intros Hn. elem_cases Hn; in_list. Qed.

Lemma ZYPPER_NAMES_REPO n : n ∈ ZYPPER_NAMES → n ∈ REPO_NAMES.
Proof. unfold ZYPPER_NAMES, REPO_NAMES. intros Hn. elem_cases Hn; in_list. Qed.

(** With or without the override, a repository-bearing descriptor still
    carries the URL it was created with, under one and the same key. *)
Lemma repo_override_keeps_url h OS_VERSION BASE_URL docker repo cf g :
  let g0 := containers_0 OS_VERSION BASE_URL docker in
  repo_override h g0 = inr (repo, cf, g) →
  ∃ key, ∀ n, n ∈ REPO_NAMES → ob_dict (g n) !! key = ob_dict (g0 n) !! "url".
Proof.
  intros g0 Hr.
  destruct (environ h !! "BCI_DEVEL_REPO") as [repo'|] eqn:Henv.
  - destruct (repo_override_set h g0 repo' Henv) as (g' & Hg' & Hin & _).
    { intros n _. apply containers_0_url. }
    rewrite Hr in Hg'. injection Hg' as _ _ <-.
    exists "base". intros n Hn.
    by destruct (replace_repo_attrs _ _ _ (Hin n Hn)) as (_ & _ & ? & _).
  - rewrite (repo_override_unset _ _ Henv) in Hr. injection Hr as _ _ <-.
    by exists "url".
Qed.

Lemma dotnet_not_zypper h OS_VERSION sp docker repo cf g d z :
  repo_override h (containers_0 OS_VERSION (base_url 15 sp) docker)
  = inr (repo, cf, g) →
  d ∈ DOTNET_NAMES → z ∈ ZYPPER_NAMES → g d ≠ g z.
Proof.
  intros [key Hkey]%repo_override_keeps_url Hd Hz Heq.
  apply (dotnet_zypper_url_neq OS_VERSION sp docker d z Hd Hz).
  rewrite <-!Hkey by auto using DOTNET_NAMES_REPO, ZYPPER_NAMES_REPO.
  by rewrite Heq.
Qed.

(** *** The claims about the catalog *)

(** C6: when [OS_VERSION] is of the form MAJOR.MINOR, two integers around
    one dot as in "16.0", and MAJOR is not 15, the module body stops at its
    [assert] with an [AssertionError]: no catalog is produced. *)
Theorem unsupported_major_version (h : host) (a b : string) (major sp : Z) :
  split "." (os_version h) = [a; b] →
  int_literal a = Some major →
  int_literal b = Some sp →
  major ≠ 15 →
  data_module h
  = inl (AssertionError
      ("The tests are created for SLE 15 base images only, but got a request for SLE "
       +:+ str_of_int major)) ∧
  ¬ ∃ m, data_module h = inr m.
Proof.
  intros Hsplit Ha Hb Hne.
  assert (unpack_versions (split "." (os_version h)) = inr (major, sp)) as Hp.
  { apply unpack_versions_inr. eauto. }
  rewrite (data_module_assert_error h major sp Hp Hne).
  split; [done|]. by intros [m ?].
Qed.

Lemma unsupported_major_version_witness :
  data_module (Host {[ "OS_VERSION" := "16.0" ]} "x86_64" false)
  = inl (AssertionError
      "The tests are created for SLE 15 base images only, but got a request for SLE 16").
Proof.
  apply (unsupported_major_version
           (Host {[ "OS_VERSION" := "16.0" ]} "x86_64" false) "16" "0" 16 0).
  - reflexivity.
  - reflexivity.
  - reflexivity.
  - lia.
Defined.

(** C7, as stated, fails: with the codename "tumbleweed" the version
    parsing raises [ValueError] and the module body never gets further. *)
Lemma codename_counterexample :
  data_module (Host {[ "OS_VERSION" := "tumbleweed" ]} "x86_64" false)
  = inl (ValueError_invalid_literal "tumbleweed") ∧
  ¬ ∃ m, data_module (Host {[ "OS_VERSION" := "tumbleweed" ]} "x86_64" false)
         = inr m.
Proof.
  assert (data_module (Host {[ "OS_VERSION" := "tumbleweed" ]} "x86_64" false)
          = inl (ValueError_invalid_literal "tumbleweed")) as Heq
    by (by apply data_module_parse_error).
  split; [done|]. intros [m Hm]. by rewrite Heq in Hm.
Qed.

(** C7, amended: for every [OS_VERSION] without a dot, such as a
    rolling-release codename, the version parsing raises [ValueError] and no
    catalog is produced; the module body runs to its end exactly when
    [OS_VERSION] splits at its dots into two pieces that [int] accepts, the
    first of value 15. *)
Theorem version_parsing (h : host) :
  (occurs "." (os_version h) = false →
     ∃ e, data_module h = inl e ∧ is_ValueError e = true) ∧
  ((∃ m, data_module h = inr m) ↔
   ∃ a b sp, split "." (os_version h) = [a; b] ∧
             int_literal a = Some 15 ∧ int_literal b = Some sp).
Proof.
  split.
  - intros (e & He & Hv)%unpack_versions_no_dot.
    exists e. split; [|done]. by apply data_module_parse_error.
  - rewrite data_module_inr_iff. split.
    + intros [sp (a & b & ?)%unpack_versions_inr]. eauto.
    + intros (a & b & sp & ?). exists sp. apply unpack_versions_inr. eauto.
Qed.

Lemma version_parsing_witness :
  (∃ e, data_module (Host {[ "OS_VERSION" := "basalt" ]} "x86_64" false) = inl e ∧
        is_ValueError e = true) ∧
  (∃ m, data_module (Host ∅ "aarch64" true) = inr m).
Proof.
  split.
  - apply (proj1 (version_parsing (Host {[ "OS_VERSION" := "basalt" ]} "x86_64" false))).
    reflexivity.
  - apply (proj2 (version_parsing (Host ∅ "aarch64" true))).
    exists "15", "3", 3. repeat split; reflexivity.
Defined.

(** C1: when [BCI_DEVEL_REPO] is set and the version is accepted, every
    repository-bearing name (every name but [MINIMAL_CONTAINER] and
    [MICRO_CONTAINER]) is rebound to a [DerivedContainer] whose base is the
    URL of the [Container] it replaces and whose containerfile is the one
    [sed] instruction that puts the override into the baseurl line of
    SLE_BCI.repo (one line, when the override has no line break); [MINIMAL_CONTAINER] and [MICRO_CONTAINER] stay the plain
    [Container] objects they were. *)
Theorem repo_override_rewrites (h : host) (sp : Z) (repo : string) :
  unpack_versions (split "." (os_version h)) = inr (15, sp) →
  environ h !! "BCI_DEVEL_REPO" = Some repo →
  let g0 := containers_0 (os_version h) (base_url 15 sp) (DOCKER_SELECTED h) in
  let instruction :=
    "RUN sed -i 's|baseurl.*|baseurl=" +:+ repo
    +:+ "|' /etc/zypp/repos.d/SLE_BCI.repo" in
  ∃ m, data_module h = inr m ∧
    (occurs "010" repo = false → occurs "010" instruction = false) ∧
    (∀ n, n ∈ REPO_NAMES ↔ n ≠ MINIMAL_CONTAINER ∧ n ≠ MICRO_CONTAINER) ∧
    (∀ n, n ∈ REPO_NAMES →
       ob_class (g0 n) = Container_class ∧
       (∃ url, ob_dict (g0 n) !! "url" = Some (VStr url)) ∧
       ob_class (containers m n) = DerivedContainer_class ∧
       ob_dict (containers m n) !! "base" = ob_dict (g0 n) !! "url" ∧
       ob_dict (containers m n) !! "url" = None ∧
       ob_dict (containers m n) !! "containerfile" = Some (VStr instruction)) ∧
    (∀ n, n = MINIMAL_CONTAINER ∨ n = MICRO_CONTAINER →
       containers m n = g0 n ∧
       ob_class (containers m n) = Container_class ∧
       (∃ url, ob_dict (containers m n) !! "url" = Some (VStr url)) ∧
       ob_dict (containers m n) !! "base" = None ∧
       ob_dict (containers m n) !! "containerfile" = None).
Proof.
  intros Hp Henv g0 instruction.
  destruct (repo_override_set h g0 repo Henv) as (g & Hg & Hin & Hout).
  { intros n _. apply containers_0_url. }
  destruct (data_module_runs _ _ _ _ _ Hp Hg)
    as (m & Hm & _ & _ & _ & _ & _ & _ & _ & Hc & _).
  exists m. rewrite Hc. split; [done|]. split.
  { intros Hrepo. unfold instruction. rewrite !occurs_app, Hrepo. done. }
  split; [apply REPO_NAMES_spec|]. split.
  - intros n Hn.
    destruct (replace_repo_attrs _ _ _ (Hin n Hn))
      as (Hcls & _ & Hbase & Hcf & Hurl & _).
    destruct (containers_0_Container (os_version h) (base_url 15 sp)
                (DOCKER_SELECTED h) n) as (kwargs & url & Hn0 & Hkw).
    repeat split; try done.
    + unfold g0. by rewrite Hn0.
    + exists url. unfold g0. rewrite Hn0. by apply lookup_union_Some_l.
  - intros n Hn. rewrite Hout
      by (rewrite REPO_NAMES_spec; intros [Hmin Hmic]; by destruct Hn).
    destruct Hn as [Hn | Hn]; subst n;
      (split; [done|]; split; [done|]; split; [by eexists|]; done).
Qed.

Lemma repo_override_rewrites_witness :
  ∃ m, data_module
         (Host {[ "OS_VERSION" := "15.3"; "BCI_DEVEL_REPO" := "http://example/repo/" ]}
               "x86_64" false) = inr m ∧
       ob_class (containers m BASE_CONTAINER) = DerivedContainer_class ∧
       ob_dict (containers m BASE_CONTAINER) !! "base"
       = Some (VStr "registry.suse.de/suse/sle-15-sp3/update/cr/totest/images/suse/sle15:15.3") ∧
       ob_dict (containers m BASE_CONTAINER) !! "containerfile"
       = Some (VStr "RUN sed -i 's|baseurl.*|baseurl=http://example/repo/|' /etc/zypp/repos.d/SLE_BCI.repo") ∧
       ob_dict (containers m MINIMAL_CONTAINER) !! "url"
       = Some (VStr "registry.suse.de/suse/sle-15-sp3/update/cr/totest/images/bci/minimal:15.3").
Proof.
  destruct (repo_override_rewrites
              (Host {[ "OS_VERSION" := "15.3";
                       "BCI_DEVEL_REPO" := "http://example/repo/" ]} "x86_64" false)
              3 "http://example/repo/")
    as (m & Hm & _ & _ & Hrepo & Hplain); [reflexivity|reflexivity|].
  exists m. split; [exact Hm|].
  destruct (Hrepo BASE_CONTAINER ltac:(unfold REPO_NAMES; in_list))
    as (_ & _ & Hcls & Hbase & _ & Hcf).
  destruct (Hplain MINIMAL_CONTAINER (or_introl eq_refl)) as (Hmin & _).
  split; [exact Hcls|]. split; [exact Hbase|]. split; [exact Hcf|].
  rewrite Hmin. reflexivity.
Defined.

(** C2: for every repository-bearing name, the rewriting leaves every
    attribute other than url, base and containerfile as it was (for instance
    extra_launch_args and default_entry_point). *)
Theorem repo_override_frame (h : host) (sp : Z) (repo : string) (n : name)
    (attr : string) :
  unpack_versions (split "." (os_version h)) = inr (15, sp) →
  environ h !! "BCI_DEVEL_REPO" = Some repo →
  n ∈ REPO_NAMES →
  attr ∉ ["url"; "base"; "containerfile"] →
  ∃ m, data_module h = inr m ∧
       ob_dict (containers m n) !! attr
       = ob_dict (containers_0 (os_version h) (base_url 15 sp) (DOCKER_SELECTED h) n)
         !! attr.
Proof.
  intros Hp Henv Hn Hattr.
  set (g0 := containers_0 (os_version h) (base_url 15 sp) (DOCKER_SELECTED h)).
  destruct (repo_override_set h g0 repo Henv) as (g & Hg & Hin & _).
  { intros n' _. apply containers_0_url. }
  destruct (data_module_runs _ _ _ _ _ Hp Hg)
    as (m & Hm & _ & _ & _ & _ & _ & _ & _ & Hc & _).
  exists m. rewrite Hc. split; [done|].
  destruct (replace_repo_attrs _ _ _ (Hin n Hn)) as (_ & _ & _ & _ & _ & Hframe).
  rewrite (Hframe attr Hattr).
  destruct (containers_0_Container (os_version h) (base_url 15 sp)
              (DOCKER_SELECTED h) n) as (kwargs & url & Hn0 & _).
  unfold g0. rewrite Hn0. by rewrite Container_defaults.
Qed.

Lemma repo_override_frame_witness :
  ∃ m, data_module
         (Host {[ "OS_VERSION" := "15.3"; "BCI_DEVEL_REPO" := "http://example/repo/" ]}
               "x86_64" true) = inr m ∧
       ob_dict (containers m INIT_CONTAINER) !! "extra_launch_args"
       = Some (VList ["--privileged"; "--tmpfs"; "/tmp"; "--tmpfs"; "/run"; "-v";
                      "/sys/fs/cgroup:/sys/fs/cgroup:ro,z"; "-e"; "container=docker"]).
Proof.
  destruct (repo_override_frame
              (Host {[ "OS_VERSION" := "15.3";
                       "BCI_DEVEL_REPO" := "http://example/repo/" ]} "x86_64" true)
              3 "http://example/repo/" INIT_CONTAINER "extra_launch_args")
    as (m & Hm & Hattr).
  - reflexivity.
  - reflexivity.
  - unfold REPO_NAMES. in_list.
  - not_in_list.
  - exists m. split; [exact Hm|]. rewrite Hattr. reflexivity.
Defined.

(** C8: once the catalog is built, each of the nine .NET descriptors is
    a member of [CONTAINERS_WITH_ZYPPER] if and only if the host
    architecture is x86_64; on any other architecture none of them is. *)
Theorem dotnet_family_membership (h : host) (sp : Z) :
  unpack_versions (split "." (os_version h)) = inr (15, sp) →
  ∃ m, data_module h = inr m ∧
       DOTNET_CONTAINERS m = containers m <$> DOTNET_NAMES ∧
       length (DOTNET_CONTAINERS m) = 9%nat ∧
       ∀ c, c ∈ DOTNET_CONTAINERS m →
            (c ∈ CONTAINERS_WITH_ZYPPER m ↔ arch h = "x86_64").
Proof.
  intros Hp.
  destruct (repo_override_total h (os_version h) (base_url 15 sp) (DOCKER_SELECTED h))
    as (repo & cf & g & Hr).
  destruct (data_module_runs _ _ _ _ _ Hp Hr)
    as (m & Hm & _ & _ & _ & _ & _ & _ & _ & Hc & _ & Hd & Hz & _).
  exists m. rewrite Hd, Hz, Hc. split; [done|]. split; [done|]. split; [done|].
  intros c (d & -> & Hdn)%list_elem_of_fmap.
  destruct (decide (arch h = "x86_64")) as [Harch|Harch].
  - split; [done|]. intros _. apply elem_of_app. right.
    by apply list_elem_of_fmap_2.
  - split; [|done]. rewrite app_nil_r.
    intros (z & Heq & Hzn)%list_elem_of_fmap.
    by destruct (dotnet_not_zypper _ _ _ _ _ _ _ d z Hr Hdn Hzn).
Qed.

Lemma dotnet_family_membership_witness :
  (∃ m, data_module (Host {[ "OS_VERSION" := "15.3" ]} "x86_64" false) = inr m ∧
        containers m DOTNET_SDK_6_0_CONTAINER ∈ CONTAINERS_WITH_ZYPPER m) ∧
  (∃ m, data_module (Host {[ "OS_VERSION" := "15.3" ]} "aarch64" false) = inr m ∧
        containers m DOTNET_SDK_6_0_CONTAINER ∉ CONTAINERS_WITH_ZYPPER m).
Proof.
  split.
  - destruct (dotnet_family_membership
                (Host {[ "OS_VERSION" := "15.3" ]} "x86_64" false) 3)
      as (m & Hm & Hd & _ & Hiff); [reflexivity|].
    exists m. split; [exact Hm|]. apply Hiff; [|reflexivity].
    rewrite Hd. apply list_elem_of_fmap_2. unfold DOTNET_NAMES. in_list.
  - destruct (dotnet_family_membership
                (Host {[ "OS_VERSION" := "15.3" ]} "aarch64" false) 3)
      as (m & Hm & Hd & _ & Hiff); [reflexivity|].
    exists m. split; [exact Hm|]. intros Hin. apply Hiff in Hin; [discriminate|].
    rewrite Hd. apply list_elem_of_fmap_2. unfold DOTNET_NAMES. in_list.
Defined.

(** C9, as stated, fails: on aarch64 the module body runs to its end and
    still binds the nine .NET descriptors. *)
Lemma dotnet_other_arch_counterexample :
  ∃ m, data_module (Host {[ "OS_VERSION" := "15.3" ]} "aarch64" false) = inr m ∧
       length (DOTNET_CONTAINERS m) = 9%nat ∧
       length (CONTAINERS_WITH_ZYPPER m) = 10%nat.
Proof. eexists. split; [reflexivity|]. split; reflexivity. Qed.

(** C9, amended: on an architecture other than x86_64 catalog construction
    does not fail; the nine .NET descriptors are still bound and listed in
    [DOTNET_CONTAINERS], they are left out of [CONTAINERS_WITH_ZYPPER] and
    [ALL_CONTAINERS], and the condition of [DOTNET_ARCH_SKIP_MARK] is true. *)
Theorem dotnet_on_other_arch (h : host) (sp : Z) :
  unpack_versions (split "." (os_version h)) = inr (15, sp) →
  arch h ≠ "x86_64" →
  ∃ m, data_module h = inr m ∧
       DOTNET_ARCH_SKIP_MARK m = true ∧
       DOTNET_CONTAINERS m = containers m <$> DOTNET_NAMES ∧
       CONTAINERS_WITH_ZYPPER m = containers m <$> ZYPPER_NAMES ∧
       ALL_CONTAINERS m
       = (containers m <$> ZYPPER_NAMES)
         ++ [containers m MINIMAL_CONTAINER; containers m MICRO_CONTAINER].
Proof.
  intros Hp Harch.
  destruct (repo_override_total h (os_version h) (base_url 15 sp) (DOCKER_SELECTED h))
    as (repo & cf & g & Hr).
  destruct (data_module_runs _ _ _ _ _ Hp Hr)
    as (m & Hm & _ & _ & _ & Hskip & _ & _ & _ & Hc & _ & Hd & Hz & Hw & Hall).
  exists m. rewrite Hall, Hw, Hz, Hd, Hskip, Hc.
  rewrite decide_False, app_nil_r by done.
  by rewrite bool_decide_eq_true_2.
Qed.

Lemma dotnet_on_other_arch_witness :
  ∃ m, data_module (Host {[ "OS_VERSION" := "15.3" ]} "s390x" false) = inr m ∧
       DOTNET_ARCH_SKIP_MARK m = true ∧
       length (CONTAINERS_WITH_ZYPPER m) = 10%nat.
Proof.
  destruct (dotnet_on_other_arch (Host {[ "OS_VERSION" := "15.3" ]} "s390x" false) 3)
    as (m & Hm & Hskip & _ & Hz & _); [reflexivity|discriminate|].
  exists m. split; [exact Hm|]. split; [exact Hskip|]. rewrite Hz. reflexivity.
Defined.

(** C10: [BCI_DEVEL_REPO] is the value of the environment variable or, when
    that is unset, the default URL of the host architecture; when unset, no
    name is rebound; in both cases the containerfile of
    [REPOCLOSURE_CONTAINER] has that value as the baseurl of its SLE_BCI
    entry. *)
Theorem devel_repo (h : host) (sp : Z) :
  unpack_versions (split "." (os_version h)) = inr (15, sp) →
  ∃ m, data_module h = inr m ∧
       BCI_DEVEL_REPO m
       = default ("https://updates.suse.com/SUSE/Products/SLE-BCI/15-SP3/"
                  +:+ arch h +:+ "/product/")
                 (environ h !! "BCI_DEVEL_REPO") ∧
       (environ h !! "BCI_DEVEL_REPO" = None →
          REPLACE_REPO_CONTAINERFILE m = None ∧
          ∀ n, containers m n
               = containers_0 (os_version h) (base_url 15 sp) (DOCKER_SELECTED h) n) ∧
       ob_class (REPOCLOSURE_CONTAINER m) = DerivedContainer_class ∧
       ob_dict (REPOCLOSURE_CONTAINER m) !! "base"
       = Some (VStr "registry.fedoraproject.org/fedora:latest") ∧
       ob_dict (REPOCLOSURE_CONTAINER m) !! "containerfile"
       = Some (VStr
           (("RUN dnf -y install 'dnf-command(repoclosure)'" +:+ nl +:+
             "RUN rm -f /etc/yum.repos.d/*repo" +:+ nl +:+
             "RUN echo $'[SLE_BCI] \n\" +:+ nl +:+
             "enabled=1 \n\" +:+ nl +:+
             "name=" +:+ dquote +:+ "SLE BCI" +:+ dquote +:+ " \n\" +:+ nl +:+
             "autorefresh=0 \n\" +:+ nl)
            +:+ "baseurl=" +:+ BCI_DEVEL_REPO m +:+ " \n\" +:+ nl +:+
            "priority=100' > /etc/yum.repos.d/SLE_BCI.repo" +:+ nl)).
Proof.
  intros Hp.
  set (g0 := containers_0 (os_version h) (base_url 15 sp) (DOCKER_SELECTED h)).
  assert (∃ repo cf g,
            repo_override h g0 = inr (repo, cf, g) ∧
            repo = default ("https://updates.suse.com/SUSE/Products/SLE-BCI/15-SP3/"
                            +:+ arch h +:+ "/product/")
                           (environ h !! "BCI_DEVEL_REPO") ∧
            (environ h !! "BCI_DEVEL_REPO" = None → cf = None ∧ g = g0))
    as (repo & cf & g & Hr & Hrepo & Hunset).
  { destruct (environ h !! "BCI_DEVEL_REPO") as [repo|] eqn:Henv.
    - destruct (repo_override_set h g0 repo Henv) as (g & Hg & _).
      { intros n _. apply containers_0_url. }
      by exists repo, (Some (replace_repo_containerfile repo)), g.
    - rewrite (repo_override_unset _ _ Henv). by eexists _, None, g0. }
  destruct (data_module_runs _ _ _ _ _ Hp Hr)
    as (m & Hm & _ & _ & _ & _ & _ & Hb & Hcf & Hc & Hclosure & _).
  exists m. rewrite Hb, Hcf, Hc, Hclosure. split; [done|]. split; [done|]. split.
  { intros [-> ->]%Hunset. done. }
  done.
Qed.

Lemma devel_repo_witness :
  ∃ m, data_module (Host ∅ "aarch64" false) = inr m ∧
       BCI_DEVEL_REPO m
       = "https://updates.suse.com/SUSE/Products/SLE-BCI/15-SP3/aarch64/product/" ∧
       ob_class (containers m BASE_CONTAINER) = Container_class.
Proof.
  destruct (devel_repo (Host ∅ "aarch64" false) 3)
    as (m & Hm & Hrepo & Hunset & _); [reflexivity|].
  exists m. split; [exact Hm|]. split; [exact Hrepo|].
  destruct (Hunset eq_refl) as [_ Hsame]. rewrite Hsame. reflexivity.
Defined.

End catalog.

(** ** More on the verification rules of [tests/test_base.py] *)

Section more_rules.
Import Py Tests Parametrize.

(** A known architecture has a positive limit in every bucket; any other
    architecture has none. *)
Lemma size_limit_bucket OS_VERSION baseurl arch :
  (arch ∈ ARCHS →
     ∃ n, max_container_size OS_VERSION baseurl arch = inr n ∧ 0 < n) ∧
  (arch ∉ ARCHS →
     max_container_size OS_VERSION baseurl arch = inl (KeyError arch)).
Proof.
  unfold max_container_size, getitem.
  pose proof (base_container_max_size_lookup OS_VERSION (is_fips_ctr baseurl) arch)
    as Hlook.
  destruct (_ !! arch) as [n|]; exn_simpl; split.
  - intros _. exists n. by destruct Hlook.
  - intros Hnot. by destruct Hlook.
  - intros Hin. done.
  - done.
Qed.

Lemma rpartition_last_none sep s :
  occurs sep s = false → rpartition_last sep s = None.
Proof.
  induction s as [|c s IH]; simpl; [done|].
  intros [Hc Hs]%orb_false_elim. by rewrite IH, Hc.
Qed.

Lemma rpartition_last_app sep head tail :
  occurs sep tail = false →
  rpartition_last sep (head +:+ String sep tail) = Some (head, tail).
Proof.
  intros Htail. induction head as [|c head IH].
  - change (rpartition_last sep (String sep tail) = Some (EmptyString, tail)).
    simpl. by rewrite (rpartition_last_none _ _ Htail), Ascii.eqb_refl.
  - change (rpartition_last sep (String c (head +:+ String sep tail))
            = Some (String c head, tail)).
    simpl. by rewrite IH.
Qed.

(** X1: only the last path component of the base URL decides whether a
    container counts as a FIPS container: a URL with a slash is judged by
    the text after its last slash, a URL without a slash by the whole text,
    and a missing or empty URL never counts. *)
Theorem is_fips_ctr_last_component (head tail : string) :
  occurs "/" tail = false →
  is_fips_ctr (Some (head +:+ "/" +:+ tail)) = startswith "bci-base-fips" tail ∧
  is_fips_ctr (Some tail) = startswith "bci-base-fips" tail ∧
  is_fips_ctr None = false ∧
  is_fips_ctr (Some EmptyString) = false.
Proof.
  intros Htail. split; [|split; [|done]].
  - unfold is_fips_ctr, rpartition.
    change (head +:+ "/" +:+ tail) with (head +:+ String "/" tail).
    rewrite (rpartition_last_app _ _ _ Htail).
    case_decide as Hempty; [|done].
    by destruct head.
  - unfold is_fips_ctr, rpartition.
    rewrite (rpartition_last_none _ _ Htail).
    case_decide as Hempty; [by subst|done].
Qed.

Lemma is_fips_ctr_last_component_witness :
  is_fips_ctr (Some "registry.suse.com/bci/bci-base-fips:15.6") = true ∧
  is_fips_ctr (Some "registry.suse.com/bci-base-fips/bci-base:15.6") = false.
Proof.
  split.
  - apply (proj1 (is_fips_ctr_last_component
                    "registry.suse.com/bci" "bci-base-fips:15.6" eq_refl)).
  - apply (proj1 (is_fips_ctr_last_component
                    "registry.suse.com/bci-base-fips" "bci-base:15.6" eq_refl)).
Defined.

(** X2: a container whose base URL ends in a component that starts with
    bci-base-fips is measured against the limits of the rolling releases,
    whatever [OS_VERSION] is. *)
Theorem fips_container_limit (OS_VERSION head tail arch : string) :
  occurs "/" tail = false →
  startswith "bci-base-fips" tail = true →
  max_container_size OS_VERSION (Some (head +:+ "/" +:+ tail)) arch
  = max_container_size "tumbleweed" None arch.
Proof.
  intros Htail Hfips. unfold max_container_size.
  destruct (is_fips_ctr_last_component head tail Htail) as [-> _].
  rewrite Hfips. unfold base_container_max_size. by rewrite orb_true_r.
Qed.

Lemma fips_container_limit_witness :
  max_container_size "15.6" (Some "registry.suse.com/bci/bci-base-fips:15.6") "x86_64"
  = inr 132.
Proof.
  etrans.
  - apply (fips_container_limit "15.6" "registry.suse.com/bci" "bci-base-fips:15.6"
             "x86_64"); reflexivity.
  - reflexivity.
Defined.

(** X3: in every bucket the four limits are ordered x86_64 < s390x <
    aarch64 < ppc64le and lie between 120 and 184 MiB. *)
Theorem size_limits_ordered (OS_VERSION : string) (baseurl : option string) :
  ∃ x s a p,
    max_container_size OS_VERSION baseurl "x86_64" = inr x ∧
    max_container_size OS_VERSION baseurl "s390x" = inr s ∧
    max_container_size OS_VERSION baseurl "aarch64" = inr a ∧
    max_container_size OS_VERSION baseurl "ppc64le" = inr p ∧
    (120 ≤ x)%Z ∧ x < s ∧ s < a ∧ a < p ∧ (p ≤ 184)%Z.
Proof.
  unfold max_container_size.
  destruct (base_container_max_size_cases OS_VERSION (is_fips_ctr baseurl))
    as [-> | [-> | [-> | ->] ] ];
    do 4 eexists; repeat split; try reflexivity; lia.
Qed.

(** X4: [test_base_size] rounds the image size down to whole MiB before it
    compares: on a known architecture the test passes exactly when the size
    in bytes is below (limit + 1) MiB, and fails with [AssertionError]
    otherwise. *)
Theorem test_base_size_boundary (OS_VERSION : string) (baseurl : option string)
    (arch : string) (image_size : Z) :
  arch ∈ ARCHS →
  ∃ limit,
    max_container_size OS_VERSION baseurl arch = inr limit ∧
    (test_base_size OS_VERSION baseurl arch image_size = inr () ↔
     image_size < (limit + 1) * 1048576) ∧
    (((limit + 1) * 1048576 ≤ image_size)%Z →
     ∃ msg, test_base_size OS_VERSION baseurl arch image_size
            = inl (AssertionError msg)).
Proof.
  intros Harch.
  destruct (proj1 (size_limit_bucket OS_VERSION baseurl arch) Harch)
    as (limit & Hlimit & _).
  exists limit. split; [done|].
  unfold test_base_size. rewrite Hlimit, bind_inr.
  assert ((image_size `div` (1024 * 1024) ≤ limit)%Z ↔
          image_size < (limit + 1) * 1048576) as Hdiv.
  { change (1024 * 1024) with 1048576.
    pose proof (Z.div_mod image_size 1048576 ltac:(lia)) as Hdm.
    pose proof (Z.mod_pos_bound image_size 1048576 ltac:(lia)) as Hmod.
    lia. }
  case_decide as Hle; exn_simpl.
  - split; [by rewrite <-Hdiv|]. intros Hbig. apply Hdiv in Hle. lia.
  - split; [split; [done|by intros ?%Hdiv]|]. eauto.
Qed.

Lemma test_base_size_boundary_witness :
  test_base_size "15.3" None "x86_64" (121 * 1048576 - 1) = inr ().
Proof.
  destruct (test_base_size_boundary "15.3" None "x86_64" (121 * 1048576 - 1))
    as (limit & Hlimit & Hpass & _).
  - unfold ARCHS. in_list.
  - apply Hpass.
    assert (limit = 120) as -> by (vm_compute in Hlimit; congruence).
    lia.
Defined.

Lemma filter_all {A} (P : A → Prop) `{∀ x, Decision (P x)} (l : list A) :
  (∀ x, x ∈ l → P x) → filter P l = l.
Proof.
  induction l as [|x l IH]; [done|]. intros Hl.
  rewrite filter_cons_True by (apply Hl; by left).
  f_equal. apply IH. intros y Hy. apply Hl. by right.
Qed.

Lemma filter_none {A} (P : A → Prop) `{∀ x, Decision (P x)} (l : list A) :
  (∀ x, x ∈ l → ¬ P x) → filter P l = [].
Proof.
  induction l as [|x l IH]; [done|]. intros Hl.
  rewrite filter_cons_False by (apply Hl; by left).
  apply IH. intros y Hy. apply Hl. by right.
Qed.

(** X5: [test_all_openssl_hashes_known] does not look at the order of the
    digests that openssl lists: any rearrangement of the expected list
    passes; and when the expected list has no repeated name, nothing but a
    rearrangement of it passes. *)
Theorem digest_test_permutation (ALL_DIGESTS FIPS_DIGESTS : list string)
    (host_fips_enabled target_fips_enforced : bool) (OS_VERSION : string)
    (hashes : list string) :
  let expected :=
    expected_digest_list ALL_DIGESTS FIPS_DIGESTS
      host_fips_enabled target_fips_enforced OS_VERSION in
  let outcome :=
    test_all_openssl_hashes_known ALL_DIGESTS FIPS_DIGESTS
      host_fips_enabled target_fips_enforced OS_VERSION hashes in
  (hashes ≡ₚ expected → outcome = inr ()) ∧
  (NoDup expected → outcome = inr () → hashes ≡ₚ expected) ∧
  (outcome = inr () ∨ ∃ msg, outcome = inl (AssertionError msg)).
Proof.
  intros expected outcome. unfold outcome, test_all_openssl_hashes_known.
  fold expected. split; [|split].
  - intros Hperm.
    rewrite decide_True by (by rewrite Hperm).
    rewrite decide_True by (by rewrite Hperm). done.
  - intros Hdup. case_decide as Hlen; [|done].
    case_decide as Hset; [|done]. intros _. symmetry.
    apply submseteq_length_Permutation; [|by rewrite Hlen].
    apply NoDup_submseteq; [done|]. intros x Hx.
    apply (elem_of_list_to_set (C:=gset string)). rewrite Hset.
    by apply elem_of_list_to_set.
  - repeat case_decide; exn_simpl; eauto.
Qed.

Lemma digest_test_permutation_witness :
  test_all_openssl_hashes_known ["md5"; "sha256"] ["sha256"] false false "15.5"
    ["sha256"; "gost"; "md5"] = inr () ∧
  (test_all_openssl_hashes_known ["md5"; "sha256"] ["sha256"] false false "15.5"
     ["gost"; "md5"; "sha256"] = inr () →
   ["gost"; "md5"; "sha256"] ≡ₚ ["md5"; "sha256"; "gost"]).
Proof.
  destruct (digest_test_permutation ["md5"; "sha256"] ["sha256"] false false "15.5"
              ["sha256"; "gost"; "md5"]) as (Hpass & _ & _).
  destruct (digest_test_permutation ["md5"; "sha256"] ["sha256"] false false "15.5"
              ["gost"; "md5"; "sha256"]) as (_ & Honly & _).
  split.
  - apply Hpass.
    change (["sha256"; "gost"; "md5"] ≡ₚ ["md5"; "sha256"; "gost"]).
    symmetry. apply (Permutation_cons_append ["sha256"; "gost"] "md5").
  - apply Honly.
    change (NoDup ["md5"; "sha256"; "gost"]).
    apply (bool_decide_unpack _). by vm_compute.
Defined.

(** X6: the two gost checks agree: on the versions where openssl is expected
    to answer "gost is not a known digest", and only there, "gost" is
    expected at the end of the list of digest commands; where the answer is
    "Invalid command 'gost'" the expected list is [ALL_DIGESTS] or
    [FIPS_DIGESTS] as it stands. *)
Theorem gost_checks_agree (ALL_DIGESTS FIPS_DIGESTS : list string)
    (host_fips_enabled target_fips_enforced : bool) (OS_VERSION : string) :
  let expected :=
    expected_digest_list ALL_DIGESTS FIPS_DIGESTS
      host_fips_enabled target_fips_enforced OS_VERSION in
  (openssl_error_message OS_VERSION = "gost is not a known digest" ∧
   expected = ALL_DIGESTS ++ ["gost"]) ∨
  (openssl_error_message OS_VERSION = "Invalid command 'gost'" ∧
   expected = if host_fips_enabled || target_fips_enforced
              then FIPS_DIGESTS else ALL_DIGESTS).
Proof.
  simpl. unfold openssl_error_message.
  change ["basalt"; "tumbleweed"; "15.6"] with OPENSSL_3_VERSIONS.
  case_bool_decide as Hin.
  - right. split; [done|]. by apply expected_digest_list_openssl_3.
  - left. split; [done|]. by apply expected_digest_list_openssl_1.
Qed.

(** X7: the two openssl hash tests split the images between them: every
    image of [CONTAINER_IMAGES] goes to [test_openssl_hashes] or to
    [test_openssl_fips_hashes], none goes to both, and neither test runs on
    anything else. *)
Theorem hash_tests_split_images (BASE_CONTAINER : object)
    (LTSS_BASE_CONTAINERS LTSS_BASE_FIPS_CONTAINERS : list object) (c : object) :
  let images :=
    CONTAINER_IMAGES BASE_CONTAINER LTSS_BASE_CONTAINERS LTSS_BASE_FIPS_CONTAINERS in
  let plain :=
    openssl_hashes_containers BASE_CONTAINER LTSS_BASE_CONTAINERS
      LTSS_BASE_FIPS_CONTAINERS in
  let fips := openssl_fips_hashes_containers LTSS_BASE_FIPS_CONTAINERS in
  (c ∈ images ↔ c ∈ plain ∨ c ∈ fips) ∧
  ¬ (c ∈ plain ∧ c ∈ fips) ∧
  (BASE_CONTAINER ∉ LTSS_BASE_FIPS_CONTAINERS →
   (∀ l, l ∈ LTSS_BASE_CONTAINERS → l ∉ LTSS_BASE_FIPS_CONTAINERS) →
   plain = BASE_CONTAINER :: LTSS_BASE_CONTAINERS).
Proof.
  simpl. unfold openssl_hashes_containers, openssl_fips_hashes_containers,
    CONTAINER_IMAGES.
  split; [|split].
  - rewrite list_elem_of_filter, elem_of_cons, elem_of_app.
    destruct (decide (c ∈ LTSS_BASE_FIPS_CONTAINERS)); tauto.
  - rewrite list_elem_of_filter. tauto.
  - intros Hbase Hltss.
    rewrite filter_cons_True by done. f_equal.
    rewrite filter_app, filter_all by done.
    rewrite filter_none; [by rewrite app_nil_r|].
    intros x Hx Hnot. by apply Hnot.
Qed.

Lemma hash_tests_split_images_witness :
  openssl_hashes_containers
    (Object Container_class {[ "url" := VStr "base" ]})
    [Object Container_class {[ "url" := VStr "ltss" ]}]
    [Object Container_class {[ "url" := VStr "fips" ]}]
  = [Object Container_class {[ "url" := VStr "base" ]};
     Object Container_class {[ "url" := VStr "ltss" ]}].
Proof.
  apply (hash_tests_split_images
           (Object Container_class {[ "url" := VStr "base" ]})
           [Object Container_class {[ "url" := VStr "ltss" ]}]
           [Object Container_class {[ "url" := VStr "fips" ]}]
           (Object Container_class {[ "url" := VStr "base" ]})).
  - intros Hin. apply list_elem_of_singleton in Hin.
    apply (f_equal (λ o, ob_dict o !! "url")) in Hin. discriminate Hin.
  - intros l Hl Hin. apply list_elem_of_singleton in Hl, Hin. subst l.
    apply (f_equal (λ o, ob_dict o !! "url")) in Hin. discriminate Hin.
Defined.

End more_rules.

(** ** More on the image catalog of [bci_tester/data.py] *)

Section more_catalog.
Import Py Data.

(** *** Printing a number and reading it back *)
















(** *** What a finished module body has computed *)

Lemma data_module_inv h m :
  data_module h = inr m →
  ∃ sp repo cf g,
    unpack_versions (split "." (os_version h)) = inr (15, sp) ∧
    repo_override h
      (containers_0 (os_version h) (base_url 15 sp) (DOCKER_SELECTED h))
    = inr (repo, cf, g) ∧
    m = Module_ (os_version h) 15 sp
          (default ("SUSE Linux Enterprise Server " +:+ str_of_int 15
                    +:+ " SP" +:+ str_of_int sp)
                   (environ h !! "OS_PRETTY_NAME"))
          (bool_decide (arch h ≠ "x86_64")) (base_url 15 sp) repo cf g
          (DerivedContainer
             (<["base" := VStr "registry.fedoraproject.org/fedora:latest"]>
                {[ "containerfile" := VStr (repoclosure_containerfile repo) ]}))
          (g <$> DOTNET_NAMES)
          ((g <$> ZYPPER_NAMES)
           ++ (if decide (arch h = "x86_64") then g <$> DOTNET_NAMES else []))
          [g MINIMAL_CONTAINER; g MICRO_CONTAINER]
          (((g <$> ZYPPER_NAMES)
            ++ (if decide (arch h = "x86_64") then g <$> DOTNET_NAMES else []))
           ++ [g MINIMAL_CONTAINER; g MICRO_CONTAINER]).
Proof.
  intros Hm.
  destruct (proj1 (data_module_inr_iff h) (ex_intro _ m Hm)) as [sp Hp].
  destruct (repo_override_total h (os_version h) (base_url 15 sp) (DOCKER_SELECTED h))
    as (repo & cf & g & Hr).
  exists sp, repo, cf, g. split; [done|]. split; [done|].
  revert Hm. unfold data_module. rewrite Hp, bind_inr.
  cbv beta iota zeta. rewrite (proj2 (assert_sle_15_inr 15) eq_refl), bind_inr.
  rewrite Hr, bind_inr. cbv beta iota zeta.
  by intros [= <-].
Qed.



(** *** Distinct names, distinct images *)

Lemma Container_url url :
  ob_dict (Container (url_kw url)) !! "url" = Some (VStr url).
Proof. done. Qed.

Lemma Container_url_init args flag url :
  ob_dict (Container (<["extra_launch_args" := args]>
                        (<["default_entry_point" := flag]> (url_kw url))))
  !! "url" = Some (VStr url).
Proof.
  apply lookup_union_Some_l. rewrite !lookup_insert_ne by done.
  apply lookup_singleton_eq.
Qed.

Lemma Some_VStr_inj a b : Some (VStr a) = Some (VStr b) → a = b.
Proof. congruence. Qed.

(** Read the URL off a binding of [containers_0]. *)
Ltac url_of H :=
  cbv beta iota delta [containers_0] in H;
  rewrite ?Container_url, ?Container_url_init in H.

Lemma not_dotnet n :
  n ∉ DOTNET_NAMES ↔ n ∈ ZYPPER_NAMES ++ [MINIMAL_CONTAINER; MICRO_CONTAINER].
Proof.
  unfold DOTNET_NAMES, ZYPPER_NAMES. split.
  - intros Hn. destruct n; first [ by in_list | exfalso; apply Hn; by in_list ].
  - intros Hn Hd. simpl in Hn. elem_cases Hn; elem_cases Hd; discriminate.
Qed.

Lemma plain_url OS_VERSION BASE_URL docker n :
  n ∉ DOTNET_NAMES →
  ∃ t, ob_dict (containers_0 OS_VERSION BASE_URL docker n) !! "url"
       = Some (VStr (sp3_images +:+ t)) ∧
       String.prefix "/bci/dotnet-" t = false.
Proof.
  intros Hn%not_dotnet. unfold ZYPPER_NAMES in Hn. simpl in Hn.
  elem_cases Hn; eexists; (split; [reflexivity|reflexivity]).
Qed.

Lemma dotnet_url_inj OS_VERSION BASE_URL docker d1 d2 :
  d1 ∈ DOTNET_NAMES → d2 ∈ DOTNET_NAMES →
  let g0 := containers_0 OS_VERSION BASE_URL docker in
  ob_dict (g0 d1) !! "url" = ob_dict (g0 d2) !! "url" → d1 = d2.
Proof.
  intros H1 H2 g0 Heq. unfold g0 in Heq. unfold DOTNET_NAMES in H1, H2.
  elem_cases H1; elem_cases H2; try reflexivity; exfalso;
    url_of Heq; apply Some_VStr_inj in Heq;
    apply (inj (String.app BASE_URL)) in Heq; discriminate Heq.
Qed.

Lemma plain_url_inj OS_VERSION BASE_URL docker n1 n2 :
  n1 ∉ DOTNET_NAMES → n2 ∉ DOTNET_NAMES →
  let g0 := containers_0 OS_VERSION BASE_URL docker in
  ob_dict (g0 n1) !! "url" = ob_dict (g0 n2) !! "url" → n1 = n2.
Proof.
  intros H1%not_dotnet H2%not_dotnet g0 Heq. unfold g0 in Heq.
  unfold ZYPPER_NAMES in H1, H2. simpl in H1, H2.
  elem_cases H1; elem_cases H2; try reflexivity; exfalso;
    url_of Heq; apply Some_VStr_inj in Heq;
    apply (inj (String.app sp3_images)) in Heq; discriminate Heq.
Qed.

(** Before the override, no two names share a URL. *)
Lemma containers_0_url_inj OS_VERSION sp docker n1 n2 :
  let g0 := containers_0 OS_VERSION (base_url 15 sp) docker in
  ob_dict (g0 n1) !! "url" = ob_dict (g0 n2) !! "url" → n1 = n2.
Proof.
  intros g0 Heq.
  destruct (decide (n1 ∈ DOTNET_NAMES)) as [H1|H1],
           (decide (n2 ∈ DOTNET_NAMES)) as [H2|H2].
  - by apply (dotnet_url_inj OS_VERSION (base_url 15 sp) docker).
  - destruct (dotnet_url OS_VERSION (base_url 15 sp) docker n1 H1) as [x Hx].
    destruct (plain_url OS_VERSION (base_url 15 sp) docker n2 H2) as (t & Ht & Hpre).
    unfold g0 in Heq. rewrite Hx, Ht in Heq.
    destruct (dotnet_url_neq sp x t Hpre). congruence.
  - destruct (dotnet_url OS_VERSION (base_url 15 sp) docker n2 H2) as [x Hx].
    destruct (plain_url OS_VERSION (base_url 15 sp) docker n1 H1) as (t & Ht & Hpre).
    unfold g0 in Heq. rewrite Hx, Ht in Heq.
    destruct (dotnet_url_neq sp x t Hpre). congruence.
  - by apply (plain_url_inj OS_VERSION (base_url 15 sp) docker).
Qed.

(** What the override leaves of a binding, name by name. *)
Lemma repo_override_pointwise h g0 repo cf g :
  repo_override h g0 = inr (repo, cf, g) →
  (∀ n, is_Some (ob_dict (g0 n) !! "url")) →
  match environ h !! "BCI_DEVEL_REPO" with
  | None => ∀ n, g n = g0 n
  | Some repo' =>
      (∀ n, n ∈ REPO_NAMES →
            replace_repo (replace_repo_containerfile repo') (g0 n) = inr (g n)) ∧
      (∀ n, n ∉ REPO_NAMES → g n = g0 n)
  end.
Proof.
  intros Hr Hurl.
  destruct (environ h !! "BCI_DEVEL_REPO") as [repo'|] eqn:Henv.
  - destruct (repo_override_set h g0 repo' Henv) as (g' & Hg' & Hin & Hout); [by auto|].
    rewrite Hr in Hg'. by injection Hg' as _ _ <-.
  - rewrite (repo_override_unset _ _ Henv) in Hr. by injection Hr as _ _ <-.
Qed.

Lemma containers_0_class OS_VERSION BASE_URL docker n :
  ob_class (containers_0 OS_VERSION BASE_URL docker n) = Container_class.
Proof.
  by destruct (containers_0_Container OS_VERSION BASE_URL docker n)
    as (kwargs & url & -> & _).
Qed.

Lemma repo_override_inj h OS_VERSION sp docker repo cf g n1 n2 :
  repo_override h (containers_0 OS_VERSION (base_url 15 sp) docker)
  = inr (repo, cf, g) →
  g n1 = g n2 → n1 = n2.
Proof.
  intros Hr Heq.
  set (g0 := containers_0 OS_VERSION (base_url 15 sp) docker) in *.
  assert (∀ a b, g0 a = g0 b → a = b) as Hinj0.
  { intros a b Hab. apply (containers_0_url_inj OS_VERSION sp docker).
    fold g0. by rewrite Hab. }
  pose proof (repo_override_pointwise h g0 repo cf g Hr
                (containers_0_url OS_VERSION (base_url 15 sp) docker)) as Hpt.
  destruct (environ h !! "BCI_DEVEL_REPO") as [repo'|].
  - destruct Hpt as [Hin Hout].
    destruct (decide (n1 ∈ REPO_NAMES)) as [H1|H1],
             (decide (n2 ∈ REPO_NAMES)) as [H2|H2].
    + destruct (replace_repo_attrs _ _ _ (Hin n1 H1)) as (_ & _ & Hb1 & _).
      destruct (replace_repo_attrs _ _ _ (Hin n2 H2)) as (_ & _ & Hb2 & _).
      apply (containers_0_url_inj OS_VERSION sp docker). fold g0.
      by rewrite <-Hb1, <-Hb2, Heq.
    + destruct (replace_repo_attrs _ _ _ (Hin n1 H1)) as (Hc1 & _).
      rewrite Heq, (Hout n2 H2) in Hc1. unfold g0 in Hc1.
      by rewrite containers_0_class in Hc1.
    + destruct (replace_repo_attrs _ _ _ (Hin n2 H2)) as (Hc2 & _).
      rewrite <-Heq, (Hout n1 H1) in Hc2. unfold g0 in Hc2.
      by rewrite containers_0_class in Hc2.
    + apply Hinj0. by rewrite <-(Hout n1 H1), <-(Hout n2 H2).
  - apply Hinj0. by rewrite <-!Hpt.
Qed.

Lemma group_names_NoDup (x86 : bool) :
  NoDup (ZYPPER_NAMES ++ (if x86 then DOTNET_NAMES else [])
         ++ [MINIMAL_CONTAINER; MICRO_CONTAINER]).
Proof. destruct x86; apply (bool_decide_unpack _); by vm_compute. Qed.

(** X10: once the module is loaded, distinct names are bound to distinct
    descriptors, with or without the repository override; so no image is
    listed twice in [ALL_CONTAINERS], and no descriptor is both in
    [CONTAINERS_WITH_ZYPPER] and in [CONTAINERS_WITHOUT_ZYPPER]. *)
Theorem catalog_has_no_duplicates (h : host) (m : module) :
  data_module h = inr m →
  (∀ n1 n2, containers m n1 = containers m n2 → n1 = n2) ∧
  NoDup (ALL_CONTAINERS m) ∧
  (∀ c, c ∈ CONTAINERS_WITH_ZYPPER m → c ∉ CONTAINERS_WITHOUT_ZYPPER m).
Proof.
  intros (sp & repo & cf & g & Hp & Hr & ->)%data_module_inv. simpl.
  assert (∀ n1 n2, g n1 = g n2 → n1 = n2) as Hinj
    by (intros n1 n2; by apply (repo_override_inj _ _ _ _ _ _ _ _ _ Hr)).
  assert (NoDup (((g <$> ZYPPER_NAMES)
                  ++ (if decide (arch h = "x86_64") then g <$> DOTNET_NAMES else []))
                 ++ [g MINIMAL_CONTAINER; g MICRO_CONTAINER])) as Hdup.
  { pose proof (group_names_NoDup (bool_decide (arch h = "x86_64"))) as Hnames.
    apply (NoDup_fmap_2_strong g) in Hnames; [|by auto].
    rewrite !fmap_app in Hnames. rewrite <-(assoc_L (++)).
    by destruct (decide (arch h = "x86_64"));
      [rewrite bool_decide_eq_true_2 in Hnames by done
      |rewrite bool_decide_eq_false_2 in Hnames by done]. }
  split; [done|]. split; [done|].
  by apply NoDup_app in Hdup as (_ & Hdisjoint & _).
Qed.

Lemma catalog_has_no_duplicates_witness :
  ∃ m, data_module
         (Host {[ "OS_VERSION" := "15.3"; "BCI_DEVEL_REPO" := "http://example/repo/" ]}
               "x86_64" false) = inr m ∧
       NoDup (ALL_CONTAINERS m).
Proof.
  assert (∃ m, data_module
                 (Host {[ "OS_VERSION" := "15.3";
                          "BCI_DEVEL_REPO" := "http://example/repo/" ]}
                       "x86_64" false) = inr m) as [m Hm]
    by (apply data_module_inr_iff; exists 3; reflexivity).
  exists m. split; [exact Hm|].
  exact (proj1 (proj2 (catalog_has_no_duplicates _ m Hm))).
Defined.

(** X11: [ALL_CONTAINERS] leaves out the .NET images on hosts other than
    x86_64 and nothing else: the descriptor bound to a name is listed
    exactly when the host is x86_64 or the name is not a .NET one; the list
    has 21 entries on x86_64 and 12 elsewhere. *)
Theorem all_containers_coverage (h : host) (m : module) (n : name) :
  data_module h = inr m →
  (containers m n ∈ ALL_CONTAINERS m ↔ arch h = "x86_64" ∨ n ∉ DOTNET_NAMES) ∧
  length (ALL_CONTAINERS m) = (if decide (arch h = "x86_64") then 21 else 12)%nat.
Proof.
  intros (sp & repo & cf & g & Hp & Hr & ->)%data_module_inv. simpl.
  assert (Inj (=) (=) g) as Hinj
    by (intros n1 n2; by apply (repo_override_inj _ _ _ _ _ _ _ _ _ Hr)).
  destruct (decide (arch h = "x86_64")) as [Harch|Harch].
  - split; [|done]. split; [by left|]. intros _.
    change (g n ∈ g <$> (ZYPPER_NAMES ++ DOTNET_NAMES
                         ++ [MINIMAL_CONTAINER; MICRO_CONTAINER])).
    apply list_elem_of_fmap_2.
    unfold ZYPPER_NAMES, DOTNET_NAMES. destruct n; by in_list.
  - split; [|done].
    change (g n ∈ g <$> (ZYPPER_NAMES ++ [MINIMAL_CONTAINER; MICRO_CONTAINER])
            ↔ arch h = "x86_64" ∨ n ∉ DOTNET_NAMES).
    rewrite (list_elem_of_fmap_inj g), <-not_dotnet. tauto.
Qed.

Lemma all_containers_coverage_witness :
  ∃ m, data_module (Host {[ "OS_VERSION" := "15.3" ]} "aarch64" false) = inr m ∧
       (containers m DOTNET_SDK_6_0_CONTAINER ∉ ALL_CONTAINERS m) ∧
       (containers m MICRO_CONTAINER ∈ ALL_CONTAINERS m).
Proof.
  assert (∃ m, data_module (Host {[ "OS_VERSION" := "15.3" ]} "aarch64" false)
               = inr m) as [m Hm]
    by (apply data_module_inr_iff; exists 3; reflexivity).
  exists m. split; [exact Hm|]. split.
  - intros Hin.
    apply (proj1 (all_containers_coverage _ m DOTNET_SDK_6_0_CONTAINER Hm)) in Hin.
    destruct Hin as [Harch|Hnot]; [discriminate Harch|].
    apply Hnot. unfold DOTNET_NAMES. in_list.
  - apply (proj1 (all_containers_coverage _ m MICRO_CONTAINER Hm)).
    right. apply not_dotnet. unfold ZYPPER_NAMES. in_list.
Defined.

(** *** What each descriptor depends on *)

Lemma containers_0_depends os1 os2 sp1 sp2 docker1 docker2 n :
  (n ∈ [BASE_CONTAINER; MINIMAL_CONTAINER; MICRO_CONTAINER] → os1 = os2) →
  (n ∈ DOTNET_NAMES → sp1 = sp2) →
  (n = INIT_CONTAINER → docker1 = docker2) →
  containers_0 os1 (base_url 15 sp1) docker1 n
  = containers_0 os2 (base_url 15 sp2) docker2 n.
Proof.
  intros Hos Hsp Hdocker.
  destruct n;
    first [ rewrite (Hos ltac:(by in_list))
          | rewrite (Hsp ltac:(unfold DOTNET_NAMES; by in_list))
          | rewrite (Hdocker eq_refl)
          | idtac ];
    reflexivity.
Qed.

(** X13: what a descriptor depends on.  Two loaded catalogs with the same
    repository override bind a name to the same descriptor as soon as they
    agree on [OS_VERSION] (needed for the base, minimal and micro images
    only), on the service pack (for the .NET images only) and on the choice
    of docker (for the init image only); the host architecture and the
    pretty name never matter. *)
Theorem descriptor_dependencies (h1 h2 : host) (m1 m2 : module) (n : name) :
  data_module h1 = inr m1 →
  data_module h2 = inr m2 →
  environ h1 !! "BCI_DEVEL_REPO" = environ h2 !! "BCI_DEVEL_REPO" →
  (n ∈ [BASE_CONTAINER; MINIMAL_CONTAINER; MICRO_CONTAINER] →
   os_version h1 = os_version h2) →
  (n ∈ DOTNET_NAMES → OS_SP_VERSION m1 = OS_SP_VERSION m2) →
  (n = INIT_CONTAINER → DOCKER_SELECTED h1 = DOCKER_SELECTED h2) →
  containers m1 n = containers m2 n.
Proof.
  intros (sp1 & repo1 & cf1 & g1 & _ & Hr1 & ->)%data_module_inv
         (sp2 & repo2 & cf2 & g2 & _ & Hr2 & ->)%data_module_inv.
  simpl. intros Henv Hos Hsp Hdocker.
  pose proof (containers_0_depends _ _ _ _ _ _ n Hos Hsp Hdocker) as H0.
  pose proof (repo_override_pointwise h1 _ repo1 cf1 g1 Hr1
                (containers_0_url _ _ _)) as Hpt1.
  pose proof (repo_override_pointwise h2 _ repo2 cf2 g2 Hr2
                (containers_0_url _ _ _)) as Hpt2.
  rewrite <-Henv in Hpt2.
  destruct (environ h1 !! "BCI_DEVEL_REPO") as [repo|].
  - destruct Hpt1 as [Hin1 Hout1], Hpt2 as [Hin2 Hout2].
    destruct (decide (n ∈ REPO_NAMES)) as [Hn|Hn].
    + specialize (Hin1 n Hn). specialize (Hin2 n Hn).
      rewrite H0, Hin2 in Hin1. by injection Hin1.
    + by rewrite (Hout1 n Hn), (Hout2 n Hn).
  - by rewrite Hpt1, Hpt2.
Qed.

Lemma descriptor_dependencies_witness :
  ∃ m1 m2,
    data_module (Host {[ "OS_VERSION" := "15.3" ]} "x86_64" false) = inr m1 ∧
    data_module (Host {[ "OS_VERSION" := "15.4"; "OS_PRETTY_NAME" := "SLES" ]}
                      "s390x" true) = inr m2 ∧
    containers m1 PYTHON39_CONTAINER = containers m2 PYTHON39_CONTAINER.
Proof.
  assert (∃ m, data_module (Host {[ "OS_VERSION" := "15.3" ]} "x86_64" false)
               = inr m) as [m1 Hm1]
    by (apply data_module_inr_iff; exists 3; reflexivity).
  assert (∃ m, data_module
                 (Host {[ "OS_VERSION" := "15.4"; "OS_PRETTY_NAME" := "SLES" ]}
                       "s390x" true) = inr m) as [m2 Hm2]
    by (apply data_module_inr_iff; exists 4; reflexivity).
  exists m1, m2. split; [exact Hm1|]. split; [exact Hm2|].
  apply (descriptor_dependencies _ _ m1 m2 PYTHON39_CONTAINER Hm1 Hm2).
  - reflexivity.
  - intros Hn. exfalso. elem_cases Hn; discriminate.
  - intros Hn. exfalso. unfold DOTNET_NAMES in Hn. elem_cases Hn; discriminate.
  - intros Hn. discriminate Hn.
Defined.

Lemma REPO_NAMES_groups n :
  n ∈ REPO_NAMES ↔ n ∈ ZYPPER_NAMES ∨ n ∈ DOTNET_NAMES.
Proof.
  rewrite REPO_NAMES_spec. unfold ZYPPER_NAMES, DOTNET_NAMES. split.
  - intros [Hmin Hmic]. destruct n; first [done | left; by in_list | right; by in_list].
  - intros [Hn|Hn]; elem_cases Hn; done.
Qed.

(** X14: the list of names that are rebound under the override (lines
    146-165) and the groups (lines 211-238) agree, as the comment above
    line 140 asks: with [BCI_DEVEL_REPO] set, every descriptor of
    [CONTAINERS_WITH_ZYPPER] and of [DOTNET_CONTAINERS] is a
    [DerivedContainer] that carries the [sed] instruction, and every
    descriptor of [CONTAINERS_WITHOUT_ZYPPER] is still a plain [Container];
    with [BCI_DEVEL_REPO] unset, every descriptor of [ALL_CONTAINERS] and of
    [DOTNET_CONTAINERS] is a plain [Container]. *)
Theorem override_matches_groups (h : host) (m : module) :
  data_module h = inr m →
  (∀ repo, environ h !! "BCI_DEVEL_REPO" = Some repo →
     (∀ c, c ∈ CONTAINERS_WITH_ZYPPER m ∨ c ∈ DOTNET_CONTAINERS m →
           ob_class c = DerivedContainer_class ∧
           ob_dict c !! "containerfile"
           = Some (VStr (replace_repo_containerfile repo))) ∧
     (∀ c, c ∈ CONTAINERS_WITHOUT_ZYPPER m →
           ob_class c = Container_class ∧ ob_dict c !! "containerfile" = None)) ∧
  (environ h !! "BCI_DEVEL_REPO" = None →
     ∀ c, c ∈ ALL_CONTAINERS m ∨ c ∈ DOTNET_CONTAINERS m →
          ob_class c = Container_class ∧ ob_dict c !! "containerfile" = None).
Proof.
  intros (sp & repo & cf & g & Hp & Hr & ->)%data_module_inv.
  cbn [ALL_CONTAINERS DOTNET_CONTAINERS CONTAINERS_WITH_ZYPPER
       CONTAINERS_WITHOUT_ZYPPER containers].
  set (g0 := containers_0 (os_version h) (base_url 15 sp) (DOCKER_SELECTED h)) in *.
  assert (∀ n, ob_class (g0 n) = Container_class ∧
               ob_dict (g0 n) !! "containerfile" = None) as Hplain.
  { intros n. split; [apply containers_0_class|]. by destruct n. }
  pose proof (repo_override_pointwise h g0 repo cf g Hr
                (containers_0_url _ _ _)) as Hpt.
  assert (∀ c, c ∈ (g <$> ZYPPER_NAMES)
                   ++ (if decide (arch h = "x86_64") then g <$> DOTNET_NAMES else [])
               ∨ c ∈ g <$> DOTNET_NAMES →
               ∃ n, c = g n ∧ n ∈ REPO_NAMES) as Hwith.
  { intros c [Hc|Hc].
    - apply elem_of_app in Hc as [Hc|Hc].
      + apply list_elem_of_fmap in Hc as (n & -> & Hn).
        exists n. split; [done|]. apply REPO_NAMES_groups. by left.
      + destruct (decide (arch h = "x86_64")); [|by apply elem_of_nil in Hc].
        apply list_elem_of_fmap in Hc as (n & -> & Hn).
        exists n. split; [done|]. apply REPO_NAMES_groups. by right.
    - apply list_elem_of_fmap in Hc as (n & -> & Hn).
      exists n. split; [done|]. apply REPO_NAMES_groups. by right. }
  split.
  - intros repo' Henv. rewrite Henv in Hpt. destruct Hpt as [Hin Hout]. split.
    + intros c (n & -> & Hn)%Hwith.
      by destruct (replace_repo_attrs _ _ _ (Hin n Hn)) as (? & _ & _ & ? & _).
    + intros c Hc.
      assert (∃ n, c = g n ∧ n ∉ REPO_NAMES) as (n & -> & Hn).
      { elem_cases Hc; eexists; (split; [reflexivity|]);
          rewrite REPO_NAMES_spec; by intros [? ?]. }
      rewrite (Hout n Hn). apply Hplain.
  - intros Henv c Hc. rewrite Henv in Hpt.
    assert (∃ n, c = g n) as [n ->].
    { destruct Hc as [Hc|Hc].
      - apply elem_of_app in Hc as [Hc|Hc].
        + destruct (Hwith c (or_introl Hc)) as (n & -> & _). by exists n.
        + elem_cases Hc; by eexists.
      - destruct (Hwith c (or_intror Hc)) as (n & -> & _). by exists n. }
    rewrite Hpt. apply Hplain.
Qed.

Lemma override_matches_groups_witness :
  ∃ m, data_module
         (Host {[ "OS_VERSION" := "15.3"; "BCI_DEVEL_REPO" := "http://example/repo/" ]}
               "x86_64" false) = inr m ∧
       ∀ c, c ∈ CONTAINERS_WITHOUT_ZYPPER m → ob_class c = Container_class.
Proof.
  assert (∃ m, data_module
                 (Host {[ "OS_VERSION" := "15.3";
                          "BCI_DEVEL_REPO" := "http://example/repo/" ]}
                       "x86_64" false) = inr m) as [m Hm]
    by (apply data_module_inr_iff; exists 3; reflexivity).
  exists m. split; [exact Hm|]. intros c Hc.
  destruct (override_matches_groups _ m Hm) as [Hset _].
  destruct (Hset "http://example/repo/" eq_refl) as [_ Hwithout].
  exact (proj1 (Hwithout c Hc)).
Defined.

End more_catalog.
